(** * AgenticChunker: a shallow embedding of [Advanced/agentic_chunker.py]

    The class keeps an insertion-ordered dictionary of chunks and asks a
    language model (the Oracle) where each incoming proposition belongs.
    The embedding below follows the Python source method by method.

    Conventions.
    - Python [str] values are modelled by [string]; the text is taken to be
      ASCII, so [str.upper] and [str.strip] are the ASCII ones.
    - [self.chunks] is a Python [dict]: insertion ordered, keyed by the
      chunk id.  It is modelled by an association list whose order is the
      insertion order.
    - The language model and [uuid.uuid4] are the environment: two
      functions indexed by the number of calls made so far, so that every
      sequence of answers, failures and identifiers is covered.
    - [print] calls (guarded by [print_logging]) write to stdout only and
      are not modelled. *)

From Stdlib Require Import String Ascii List ZArith NArith Arith Bool Lia.
From Stdlib Require Import Permutation.
Import ListNotations.
Open Scope string_scope.

(** ** Python string primitives *)

Module PyStr.

(** Code point of the character, as [ord] gives it. *)
Definition ord (c : ascii) : N := N_of_ascii c.

(** [str.upper] on one ASCII character: a..z go to A..Z. *)
Definition upper_char (c : ascii) : ascii :=
  if (97 <=? ord c)%N && (ord c <=? 122)%N
  then ascii_of_N (ord c - 32)
  else c.

Fixpoint upper (s : string) : string :=
  match s with
  | EmptyString => EmptyString
  | String c s' => String (upper_char c) (upper s')
  end.

(** [str.isspace] on one ASCII character: TAB, LF, VT, FF, CR, the four
    separators FS, GS, RS, US and the space. *)
Definition is_space (c : ascii) : bool :=
  ((9 <=? ord c)%N && (ord c <=? 13)%N)
  || ((28 <=? ord c)%N && (ord c <=? 32)%N).

Fixpoint lstrip (s : string) : string :=
  match s with
  | EmptyString => EmptyString
  | String c s' => if is_space c then lstrip s' else s
  end.

Fixpoint rstrip (s : string) : string :=
  match s with
  | EmptyString => EmptyString
  | String c s' =>
      match rstrip s' with
      | EmptyString => if is_space c then EmptyString else String c EmptyString
      | r => String c r
      end
  end.

(** [s.strip()] *)
Definition strip (s : string) : string := rstrip (lstrip s).

Fixpoint take (n : nat) (s : string) : string :=
  match n, s with
  | S n', String c s' => String c (take n' s')
  | _, _ => EmptyString
  end.

(** [s[:n]] for a Python integer [n]: a negative bound counts from the
    end of the string. *)
Definition slice_to (n : Z) (s : string) : string :=
  if (0 <=? n)%Z then take (Z.to_nat n) s
  else take (String.length s - Z.to_nat (- n)) s.

Fixpoint startswith (p s : string) : bool :=
  match p, s with
  | EmptyString, _ => true
  | String a p', String b s' => Ascii.eqb a b && startswith p' s'
  | String _ _, EmptyString => false
  end.

(** [sub in s]: [sub] occurs in [s] at some offset. *)
Fixpoint contains (sub s : string) : bool :=
  startswith sub s
  || match s with
     | EmptyString => false
     | String _ s' => contains sub s'
     end.

(** [sep.join(l)] *)
Fixpoint join (sep : string) (l : list string) : string :=
  match l with
  | [] => EmptyString
  | [x] => x
  | x :: l' => x ++ sep ++ join sep l'
  end.

(** [x in l] for a list of strings. *)
Definition in_list (x : string) (l : list string) : bool :=
  existsb (String.eqb x) l.

Definition nl : string := String (ascii_of_N 10) EmptyString.

End PyStr.

(** ** Python dictionaries with string keys, in insertion order *)

Module PyDict.

Definition t (V : Type) : Type := list (string * V).

Definition keys {V} (d : t V) : list string := map fst d.
Definition values {V} (d : t V) : list V := map snd d.
Definition len {V} (d : t V) : nat := length d.

(** [d[k]], [None] standing for [KeyError]. *)
Fixpoint get {V} (d : t V) (k : string) : option V :=
  match d with
  | [] => None
  | (k', v) :: d' => if String.eqb k' k then Some v else get d' k
  end.

(** [k in d] *)
Definition mem {V} (k : string) (d : t V) : bool :=
  match get d k with Some _ => true | None => false end.

(** [d[k] = v]: an existing key keeps its position, a new key goes last. *)
Fixpoint set {V} (d : t V) (k : string) (v : V) : t V :=
  match d with
  | [] => [(k, v)]
  | (k', v') :: d' =>
      if String.eqb k' k then (k', v) :: d' else (k', v') :: set d' k v
  end.

End PyDict.

(** ** The data model *)

(** One chunk record: the dictionary built in [_create_new_chunk]. *)
Record Chunk : Type := mkChunk {
  chunk_id : string;
  propositions : list string;
  title : string;
  summary : string;
  chunk_index : nat
}.

Definition with_propositions (c : Chunk) (ps : list string) : Chunk :=
  mkChunk (chunk_id c) ps (title c) (summary c) (chunk_index c).
Definition with_summary (c : Chunk) (s : string) : Chunk :=
  mkChunk (chunk_id c) (propositions c) (title c) s (chunk_index c).
Definition with_title (c : Chunk) (t : string) : Chunk :=
  mkChunk (chunk_id c) (propositions c) t (summary c) (chunk_index c).

(** The attributes of an [AgenticChunker] object ([self.llm] is part of the
    environment). *)
Record AgenticChunker : Type := mkChunker {
  chunks : PyDict.t Chunk;
  id_truncate_limit : Z;
  generate_new_metadata_ind : bool;
  print_logging : bool
}.

Definition with_chunks (s : AgenticChunker) (d : PyDict.t Chunk) : AgenticChunker :=
  mkChunker d (id_truncate_limit s) (generate_new_metadata_ind s) (print_logging s).

(** What is sent to the language model: one constructor per prompt
    template, carrying the values of the template's fields. *)
Inductive Query : Type :=
| UpdateSummaryPrompt (proposition current_summary : string)
| UpdateTitlePrompt (proposition current_summary current_title : string)
| NewSummaryPrompt (proposition : string)
| NewTitlePrompt (summary : string)
| PlacementPrompt (current_chunk_outline proposition : string).

Definition is_placement (q : Query) : bool :=
  match q with PlacementPrompt _ _ => true | _ => false end.

Inductive Exn : Type :=
| OracleError            (* [runnable.invoke] raised *)
| KeyError (k : string). (* [self.chunks[k]] on an absent key *)

(** The object together with the history of its interaction with the
    environment.  [asked] lists the queries sent to the language model,
    oldest first; [draws] counts the calls of [uuid.uuid4].  [created] is a
    ghost counter of the insertions done by [_create_new_chunk]. *)
Record World : Type := mkWorld {
  self : AgenticChunker;
  asked : list Query;
  draws : nat;
  created : nat
}.

(** A method either returns or raises; the mutations done before an
    exception stay. *)
Inductive Outcome (A : Type) : Type :=
| Return (a : A) (w : World)
| Raise (e : Exn) (w : World).
Arguments Return {A} a w.
Arguments Raise {A} e w.

Definition world_of {A} (o : Outcome A) : World :=
  match o with Return _ w => w | Raise _ w => w end.

Definition M (A : Type) : Type := World -> Outcome A.

Definition ret {A} (a : A) : M A := fun w => Return a w.

Definition bind {A B} (m : M A) (k : A -> M B) : M B :=
  fun w => match m w with
           | Return a w' => k a w'
           | Raise e w' => Raise e w'
           end.

Definition raise {A} (e : Exn) : M A := fun w => Raise e w.

Declare Scope py_scope.
Delimit Scope py_scope with py.
Notation "x <- m ;; k" := (bind m (fun x => k))
  (at level 61, m at next level, right associativity) : py_scope.
Notation "m ;; k" := (bind m (fun _ => k))
  (at level 61, right associativity) : py_scope.
Open Scope py_scope.

Definition get_self : M AgenticChunker := fun w => Return (self w) w.

Definition put_chunks (d : PyDict.t Chunk) : M unit :=
  fun w => Return tt (mkWorld (with_chunks (self w) d) (asked w) (draws w) (created w)).

(** [self.chunks[k]] read. *)
Definition getitem (k : string) : M Chunk :=
  s <- get_self ;;
  match PyDict.get (chunks s) k with
  | Some c => ret c
  | None => raise (KeyError k)
  end.

(** [self.chunks[k] = c], also used for the in-place update of a field of
    the record stored under [k]. *)
Definition setitem (k : string) (c : Chunk) : M unit :=
  s <- get_self ;;
  put_chunks (PyDict.set (chunks s) k c).

(** Ghost step: one more creation. *)
Definition tick_created : M unit :=
  fun w => Return tt (mkWorld (self w) (asked w) (draws w) (S (created w))).

(** Arguments and results of [get_chunks]: [get_type] is an arbitrary
    Python value, and the method has three ways to end. *)
Inductive PyVal : Type :=
| PyNone
| PyBool (b : bool)
| PyInt (z : Z)
| PyString (s : string)
| PyBytes (b : string)
| PyObject (type_name : string). (* an object of another type, with an
                                    equality that no string satisfies *)

Inductive ChunksView : Type :=
| ViewDict (d : PyDict.t Chunk)   (* [self.chunks] itself *)
| ViewList (l : list string)
| ViewNone.                       (* falling off the end of the method *)

(** [v == s] for a string literal [s]. *)
Definition py_eq_str (v : PyVal) (s : string) : bool :=
  match v with
  | PyString s' => String.eqb s' s
  | _ => false
  end.

(** The world after one more query has been sent. *)
Definition ask (w : World) (q : Query) : World :=
  mkWorld (self w) (asked w ++ [q]) (draws w) (created w).

(** ** The methods of [AgenticChunker] *)

Section Methods.

(** [llm n q]: what the [n]-th call of [runnable.invoke] answers when it
    is sent [q]; [None] when the call raises. *)
Variable llm : nat -> Query -> option string.

(** [uuid4 n]: [str(uuid.uuid4())] at the [n]-th draw. *)
Variable uuid4 : nat -> string.

(** [__init__] *)
Definition __init__ : World :=
  mkWorld (mkChunker [] 5%Z true true) [] 0 0.

(** [runnable.invoke({...}).content] *)
Definition invoke (q : Query) : M string :=
  fun w =>
    let w' := ask w q in
    match llm (length (asked w)) q with
    | Some r => Return r w'
    | None => Raise OracleError w'
    end.

(** [str(uuid.uuid4())] *)
Definition str_uuid4 : M string :=
  fun w => Return (uuid4 (draws w))
                  (mkWorld (self w) (asked w) (S (draws w)) (created w)).

Definition _update_chunk_summary (chunk : Chunk) : M string :=
  r <- invoke (UpdateSummaryPrompt (PyStr.join PyStr.nl (propositions chunk))
                                   (summary chunk)) ;;
  ret (PyStr.strip r).

Definition _update_chunk_title (chunk : Chunk) : M string :=
  r <- invoke (UpdateTitlePrompt (PyStr.join PyStr.nl (propositions chunk))
                                 (summary chunk) (title chunk)) ;;
  ret (PyStr.strip r).

Definition _get_new_chunk_summary (proposition : string) : M string :=
  r <- invoke (NewSummaryPrompt proposition) ;;
  ret (PyStr.strip r).

Definition _get_new_chunk_title (summary : string) : M string :=
  r <- invoke (NewTitlePrompt summary) ;;
  ret (PyStr.strip r).

(** Lines 39 to 44.  The proposition is appended first; with regeneration
    on, the summary is asked for and stored, then the title.  Every
    [self.chunks[chunk_id]] is a lookup in the store as it is then. *)
Definition add_proposition_to_chunk (chunk_id proposition : string) : M unit :=
  c <- getitem chunk_id ;;
  setitem chunk_id (with_propositions c (propositions c ++ [proposition])) ;;
  s <- get_self ;;
  if generate_new_metadata_ind s then
    c <- getitem chunk_id ;;
    new_summary <- _update_chunk_summary c ;;
    c <- getitem chunk_id ;;
    setitem chunk_id (with_summary c new_summary) ;;
    c <- getitem chunk_id ;;
    new_title <- _update_chunk_title c ;;
    c <- getitem chunk_id ;;
    setitem chunk_id (with_title c new_title)
  else ret tt.

(** Lines 93 to 104.  The id is drawn, the summary and the title are asked
    for, and only then is the record assigned to [self.chunks[new_chunk_id]],
    with the size of the store before the assignment as its index.  The
    last step counts the creation in the ghost field. *)
Definition _create_new_chunk (proposition : string) : M unit :=
  s <- get_self ;;
  u <- str_uuid4 ;;
  let new_chunk_id := PyStr.slice_to (id_truncate_limit s) u in
  new_chunk_summary <- _get_new_chunk_summary proposition ;;
  new_chunk_title <- _get_new_chunk_title new_chunk_summary ;;
  s <- get_self ;;
  setitem new_chunk_id
          (mkChunk new_chunk_id [proposition] new_chunk_title
                   new_chunk_summary (PyDict.len (chunks s))) ;;
  tick_created.

Definition outline_block (chunk : Chunk) : string :=
  "Chunk ID: " ++ chunk_id chunk ++ PyStr.nl
  ++ "Chunk Name: " ++ title chunk ++ PyStr.nl
  ++ "Chunk Summary: " ++ summary chunk ++ PyStr.nl ++ PyStr.nl.

Definition get_chunk_outline : M string :=
  s <- get_self ;;
  ret (fold_left (fun outline chunk => outline ++ outline_block chunk)
                 (PyDict.values (chunks s)) "").

Definition no_match_responses : list string :=
  ["NONE"; "NO CHUNKS"; "NO MATCH"; "NO"].

(** Lines 139 to 156 of the source: what [_find_relevant_chunk] makes of
    [result], the stripped answer of the language model. *)
Definition match_result (s : AgenticChunker) (result : string) : option string :=
  if PyStr.in_list (PyStr.upper result) no_match_responses then None
  else if PyDict.mem result (chunks s) then Some result
  else if PyDict.mem (PyStr.slice_to (id_truncate_limit s) result) (chunks s)
       then Some (PyStr.slice_to (id_truncate_limit s) result)
  else find (fun chunk_id => PyStr.contains chunk_id result)
            (PyDict.keys (chunks s)).

(** Lines 109 to 156: the outline is built and sent with the proposition,
    whatever the store holds; the answer is stripped and matched. *)
Definition _find_relevant_chunk (proposition : string) : M (option string) :=
  current_chunk_outline <- get_chunk_outline ;;
  r <- invoke (PlacementPrompt current_chunk_outline proposition) ;;
  let result := PyStr.strip r in
  s <- get_self ;;
  ret (match_result s result).

(** Truth value of the result of [_find_relevant_chunk] in [if chunk_id]:
    [None] and the empty string are false. *)
Definition truthy (chunk_id : option string) : bool :=
  match chunk_id with
  | Some (String _ _) => true
  | _ => false
  end.

(** Lines 18 to 37. *)
Definition add_proposition (proposition : string) : M unit :=
  s <- get_self ;;
  if Nat.eqb (PyDict.len (chunks s)) 0 then _create_new_chunk proposition
  else
    chunk_id <- _find_relevant_chunk proposition ;;
    match chunk_id with
    | Some id => if truthy chunk_id
                 then add_proposition_to_chunk id proposition
                 else _create_new_chunk proposition
    | None => _create_new_chunk proposition
    end.

Fixpoint add_propositions (propositions : list string) : M unit :=
  match propositions with
  | [] => ret tt
  | proposition :: rest =>
      add_proposition proposition ;; add_propositions rest
  end.

Definition get_chunks (get_type : PyVal) : M ChunksView :=
  s <- get_self ;;
  if py_eq_str get_type "dict" then ret (ViewDict (chunks s))
  else if py_eq_str get_type "list_of_strings"
       then ret (ViewList (map (fun chunk => PyStr.join " " (propositions chunk))
                               (PyDict.values (chunks s))))
  else ret ViewNone.

End Methods.

(** ** Notions used to state the properties *)

(** [sub] is a contiguous part of [s]. *)
Definition is_substring (sub s : string) : Prop :=
  exists pre post, s = pre ++ sub ++ post.

(** Equality of two texts up to the case of their letters: the two are the
    same once every capital letter is made small. *)
Definition lower_char (c : ascii) : ascii :=
  if (65 <=? PyStr.ord c)%N && (PyStr.ord c <=? 90)%N
  then ascii_of_N (PyStr.ord c + 32)
  else c.

Fixpoint lower (s : string) : string :=
  match s with
  | EmptyString => EmptyString
  | String c s' => String (lower_char c) (lower s')
  end.

Definition eq_ignore_case (a b : string) : Prop :=
  lower a = lower b.

(** The phrases by which the Oracle says that no chunk fits. *)
Definition no_match_phrases : list string :=
  ["none"; "no match"; "no chunks"; "no"].

Definition is_no_match (result : string) : Prop :=
  exists s, In s no_match_phrases /\ eq_ignore_case result s.

(** [x] is the first element of [l] that satisfies [P]. *)
Definition first_such {A} (P : A -> Prop) (l : list A) (x : A) : Prop :=
  exists before after,
    l = (before ++ x :: after)%list /\ P x /\ forall y, In y before -> ~ P y.

(** The propositions of a chunk written one after the other with one
    space between two neighbours. *)
Definition space_joined (ps : list string) : string :=
  match ps with
  | [] => ""
  | p :: rest => fold_left (fun text q => text ++ " " ++ q) rest p
  end.

(** The [chunk_index] fields in store order. *)
Definition indices (w : World) : list nat :=
  map chunk_index (PyDict.values (chunks (self w))).

(** The ids of the stored chunks, in store order. *)
Definition known_ids (w : World) : list string :=
  PyDict.keys (chunks (self w)).

(** In world [w] the language model answers [r] to [q], or fails on it. *)
Definition answers (llm : nat -> Query -> option string)
           (w : World) (q : Query) (r : string) : Prop :=
  llm (length (asked w)) q = Some r.

Definition fails (llm : nat -> Query -> option string)
           (w : World) (q : Query) : Prop :=
  llm (length (asked w)) q = None.

(** The outline of the store in [w], and the placement query made of it. *)
Definition outline_of (w : World) : string :=
  match get_chunk_outline w with
  | Return outline _ => outline
  | Raise _ _ => ""
  end.

Definition placement_query (w : World) (proposition : string) : Query :=
  PlacementPrompt (outline_of w) proposition.

(** The world with another store, with one more draw of [uuid4], with one
    more creation counted. *)
Definition with_store (w : World) (d : PyDict.t Chunk) : World :=
  mkWorld (with_chunks (self w) d) (asked w) (draws w) (created w).

Definition drew (w : World) : World :=
  mkWorld (self w) (asked w) (S (draws w)) (created w).

Definition counted (w : World) : World :=
  mkWorld (self w) (asked w) (draws w) (S (created w)).

(** A chunk with one more proposition, and the two queries that refresh
    the summary and the title of a chunk. *)
Definition appended (c : Chunk) (proposition : string) : Chunk :=
  with_propositions c (propositions c ++ [proposition]).

Definition summary_query (c : Chunk) : Query :=
  UpdateSummaryPrompt (PyStr.join PyStr.nl (propositions c)) (summary c).

Definition title_query (c : Chunk) : Query :=
  UpdateTitlePrompt (PyStr.join PyStr.nl (propositions c)) (summary c) (title c).

(** The queries sent between [w] and a later world [w']. *)
Definition asked_since (w w' : World) : list Query :=
  skipn (length (asked w)) (asked w').

(** The id that the [n]-th draw of [uuid4] gives to a chunk. *)
Definition drawn_id (uuid4 : nat -> string) (w : World) (n : nat) : string :=
  PyStr.slice_to (id_truncate_limit (self w)) (uuid4 n).

(** The chunk that [_create_new_chunk] builds in [w] from the answers
    [r1] and [r2] of the Oracle. *)
Definition new_chunk (uuid4 : nat -> string) (w : World)
           (proposition r1 r2 : string) : Chunk :=
  mkChunk (drawn_id uuid4 w (draws w)) [proposition]
          (PyStr.strip r2) (PyStr.strip r1) (length (chunks (self w))).

(** The states a fresh object goes through under calls of [add_proposition]
    and [add_propositions], whether a call returns or raises. *)
Inductive reachable (llm : nat -> Query -> option string)
          (uuid4 : nat -> string) : World -> Prop :=
| reach_init : reachable llm uuid4 __init__
| reach_add p w :
    reachable llm uuid4 w ->
    reachable llm uuid4 (world_of (add_proposition llm uuid4 p w))
| reach_adds ps w :
    reachable llm uuid4 w ->
    reachable llm uuid4 (world_of (add_propositions llm uuid4 ps w)).

(** No two of the draws made so far gave the same chunk id. *)
Definition collision_free (uuid4 : nat -> string) (w : World) : Prop :=
  forall i j, i < j < draws w -> drawn_id uuid4 w i <> drawn_id uuid4 w j.

(** What holds of the store as long as the drawn ids differ: every key
    comes from a draw, the indices count up from 0 in store order, and
    every creation has left one chunk. *)
Definition store_inv (uuid4 : nat -> string) (w : World) : Prop :=
  (forall k, In k (known_ids w) ->
             exists i, i < draws w /\ k = drawn_id uuid4 w i)
  /\ indices w = seq 0 (length (chunks (self w)))
  /\ created w = length (chunks (self w)).

(** [w'] comes after [w]: same truncation limit, no fewer draws, and the
    store invariant carried over when no id was drawn twice. *)
Definition extends (uuid4 : nat -> string) (w w' : World) : Prop :=
  id_truncate_limit (self w') = id_truncate_limit (self w)
  /\ draws w <= draws w'
  /\ (collision_free uuid4 w' -> store_inv uuid4 w -> store_inv uuid4 w').

(** [l] is the beginning of [l']. *)
Definition is_prefix_of {A} (l l' : list A) : Prop :=
  exists rest, l' = (l ++ rest)%list.

(** [w'] comes from [w] with at most [dc] more chunks, [dq] more queries
    and [dd] more draws, the ids of [w] still first and in their order,
    the queries of [w] still first in the log. *)
Definition grows (dc dq dd : nat) (w w' : World) : Prop :=
  is_prefix_of (known_ids w) (known_ids w')
  /\ length (chunks (self w')) <= length (chunks (self w)) + dc
  /\ is_prefix_of (asked w) (asked w')
  /\ length (asked w') <= length (asked w) + dq
  /\ draws w' <= draws w + dd.

(** A text that does not begin with white space. *)
Definition head_not_space (s : string) : Prop :=
  match s with
  | EmptyString => True
  | String c _ => PyStr.is_space c = false
  end.

(** What holds of every entry of the store of an object that only
    [add_proposition] and [add_propositions] have touched, after [n]
    creations. *)
Definition entry_ok (n : nat) (k : string) (c : Chunk) : Prop :=
  chunk_id c = k
  /\ String.length k <= 5
  /\ propositions c <> []
  /\ PyStr.strip (title c) = title c
  /\ PyStr.strip (summary c) = summary c
  /\ chunk_index c < n.

Definition well_formed (w : World) : Prop :=
  id_truncate_limit (self w) = 5%Z
  /\ generate_new_metadata_ind (self w) = true
  /\ NoDup (known_ids w)
  /\ (forall k c, In (k, c) (chunks (self w)) -> entry_ok (created w) k c)
  /\ length (chunks (self w)) <= created w
  /\ created w <= draws w.

(** All the propositions of the store, chunk after chunk. *)
Definition all_propositions (w : World) : list string :=
  concat (map propositions (PyDict.values (chunks (self w)))).

(** [l] is [l'] with some elements left out, the others in their order. *)
Inductive subseq {A : Type} : list A -> list A -> Prop :=
| subseq_nil : subseq [] []
| subseq_skip x l l' : subseq l l' -> subseq l (x :: l')
| subseq_take x l l' : subseq l l' -> subseq (x :: l) (x :: l').

Definition in_arrival_order (w : World) (arrived : list string) : Prop :=
  forall k c, In (k, c) (chunks (self w)) -> subseq (propositions c) arrived.

(** The language model answers every query. *)
Definition never_fails (llm : nat -> Query -> option string) : Prop :=
  forall n q, llm n q <> None.

(** Every answer to a placement query contains [id] and is no no-match
    phrase. *)
Definition always_names (llm : nat -> Query -> option string) (id : string) : Prop :=
  forall n outline p r,
    llm n (PlacementPrompt outline p) = Some r ->
    ~ is_no_match (PyStr.strip r) /\ is_substring id (PyStr.strip r).

(** Every answer to a placement query is a no-match phrase. *)
Definition always_declines (llm : nat -> Query -> option string) : Prop :=
  forall n outline p r,
    llm n (PlacementPrompt outline p) = Some r -> is_no_match (PyStr.strip r).

(** The store after the propositions [arrived] have each founded a chunk. *)
Definition one_chunk_each (uuid4 : nat -> string) (arrived : list string)
           (w : World) : Prop :=
  id_truncate_limit (self w) = 5%Z
  /\ draws w = length arrived
  /\ known_ids w = map (drawn_id uuid4 __init__) (seq 0 (length arrived))
  /\ map propositions (PyDict.values (chunks (self w)))
     = map (fun p => [p]) arrived
  /\ indices w = seq 0 (length arrived).

(** The list that [get_chunks('list_of_strings')] makes of a store. *)
Definition strings_of (d : PyDict.t Chunk) : list string :=
  map (fun chunk => PyStr.join " " (propositions chunk)) (PyDict.values d).

(** ** Concrete environments, for the examples *)

Module Demo.

(** Four draws of [uuid4]; the first and the third agree on their first
    five characters. *)
Definition uuids (n : nat) : string :=
  match n with
  | 0 => "d41a2c07-5b1e-4f6a-9c3d-0e8f7a6b5c4d"
  | 1 => "7f3b9e21-88c4-4d0a-b6f2-3a1c5e7d9b02"
  | 2 => "d41a2f9e-02b7-4c58-8e11-6d4f0a9c3e75"
  | _ => "0c8e5a13-6f2d-4b97-a0c4-9e3b7d1f5a68"
  end.

(** A language model that answers every query; it sends every
    proposition to a chunk of its own. *)
Definition llm_apart (n : nat) (q : Query) : option string :=
  match q with
  | PlacementPrompt _ _ => Some "No match"
  | NewSummaryPrompt p => Some ("About: " ++ p)
  | NewTitlePrompt _ => Some "Topic"
  | UpdateSummaryPrompt _ s => Some (s ++ " (more)")
  | UpdateTitlePrompt _ _ t => Some (t ++ " (more)")
  end.

(** A language model that finds every proposition related to the chunk
    [d41a2], and says so in a sentence. *)
Definition llm_together (n : nat) (q : Query) : option string :=
  match q with
  | PlacementPrompt _ _ => Some "The best match is d41a2."
  | NewSummaryPrompt _ => Some " Statements about the date. "
  | NewTitlePrompt _ => Some "Dates & Time"
  | UpdateSummaryPrompt _ _ => Some "Statements about the current date."
  | UpdateTitlePrompt _ _ _ => Some "Dates & Time"
  end.

(** The same, with a call that fails when a title is to be refreshed. *)
Definition llm_title_fails (n : nat) (q : Query) : option string :=
  match q with
  | UpdateTitlePrompt _ _ _ => None
  | _ => llm_together n q
  end.

(** A language model that cannot tell where a proposition goes. *)
Definition llm_unsure (n : nat) (q : Query) : option string :=
  match q with
  | PlacementPrompt _ _ => Some "I am not sure."
  | _ => llm_together n q
  end.

(** A language model that answers a placement query with the bare id of
    the chunk [d41a2], between blanks. *)
Definition llm_exact (n : nat) (q : Query) : option string :=
  match q with
  | PlacementPrompt _ _ => Some " d41a2 "
  | _ => llm_together n q
  end.

(** A language model that puts a comment after the id it chooses. *)
Definition llm_trailing (n : nat) (q : Query) : option string :=
  match q with
  | PlacementPrompt _ _ => Some "7f3b9, not d41a2"
  | _ => llm_together n q
  end.

(** A language model that names the chunk [7f3b9] after a blank, and the
    chunk [d41a2] in the comment that follows. *)
Definition llm_padded (n : nat) (q : Query) : option string :=
  match q with
  | PlacementPrompt _ _ => Some " 7f3b9, not d41a2"
  | _ => llm_together n q
  end.

(** A language model that answers a placement query with blanks only. *)
Definition llm_blank (n : nat) (q : Query) : option string :=
  match q with
  | PlacementPrompt _ _ => Some "  "
  | _ => llm_together n q
  end.

(** A language model whose every call fails. *)
Definition llm_down(n : nat) (q : Query) : option string := None.

Definition october : Chunk :=
  mkChunk "d41a2" ["The month is October."] "Dates & Time"
          "Statements about the date." 0.

Definition pizza : Chunk :=
  mkChunk "7f3b9" ["I like pizza."] "Food Preferences"
          "Statements about food." 1.

(** A store of two chunks, as two creations leave it. *)
Definition two_chunks (regenerate : bool) : World :=
  mkWorld (mkChunker [("d41a2", october); ("7f3b9", pizza)] 5%Z regenerate true)
          [] 2 2.

Definition one_chunk : World :=
  mkWorld (mkChunker [("d41a2", october)] 5%Z true true) [] 1 1.

(** A fresh object on which [id_truncate_limit] was set to 0. *)
Definition zero_limit : World :=
  mkWorld (mkChunker [] 0%Z true true) [] 0 0.

(** A fresh object after one proposition, with the language model whose
    title refresh fails. *)
Definition after_october : World :=
  world_of (add_proposition llm_title_fails uuids
                            "The month is October." __init__).

(** A fresh object after two propositions that the language model keeps
    apart. *)
Definition after_two : World :=
  world_of (add_propositions llm_apart uuids
                             ["The month is October."; "I like pizza."]
                             __init__).

(** The same after four propositions; the third draw of [uuids] repeats
    the id of the first. *)
Definition after_four : World :=
  world_of (add_propositions llm_apart uuids
                             ["The month is October."; "I like pizza.";
                              "The year is 2023."; "Returns are superlinear."]
                             __init__).

End Demo.

(** * Properties *)

(** ** Strings *)

Section StringFacts.

Lemma startswith_prefix (p s : string) :
  PyStr.startswith p s = true <-> exists post, s = p ++ post.
Proof.
  revert s; induction p as [|a p IH]; intros s; simpl.
  - split; [intros _; now exists s | reflexivity].
  - destruct s as [|b s]; simpl.
    + split; [discriminate | intros [post H]; discriminate].
    + rewrite andb_true_iff, Ascii.eqb_eq, IH. split.
      * intros [-> [post ->]]. now exists post.
      * intros [post H]. injection H as -> ->. split; [reflexivity | now exists post].
Qed.

Lemma contains_substring (sub s : string) :
  PyStr.contains sub s = true <-> is_substring sub s.
Proof.
  unfold is_substring.
  induction s as [|c s IH]; simpl; rewrite orb_true_iff, startswith_prefix.
  - split.
    + intros [[post H] | H]; [|discriminate]. now exists "", post.
    + intros [pre [post H]]. left.
      destruct pre; [now exists post | discriminate].
  - rewrite IH. split.
    + intros [[post H] | [pre [post H]]].
      * now exists "", post.
      * exists (String c pre), post. simpl. now rewrite H.
    + intros [pre [post H]]. destruct pre as [|c' pre]; simpl in H.
      * left. now exists post.
      * right. injection H as _ H. now exists pre, post.
Qed.

Lemma append_assoc (a b c : string) : (a ++ b) ++ c = a ++ b ++ c.
Proof. induction a as [|x a IH]; simpl; [reflexivity | now rewrite IH]. Qed.

Lemma in_list_In (x : string) (l : list string) :
  PyStr.in_list x l = true <-> In x l.
Proof.
  unfold PyStr.in_list. rewrite existsb_exists. split.
  - intros [y [Hy He]]. apply String.eqb_eq in He. now subst.
  - intros H. exists x. split; [assumption | apply String.eqb_refl].
Qed.

Lemma is_space_upper_char (c : ascii) :
  PyStr.is_space (PyStr.upper_char c) = PyStr.is_space c.
Proof.
  destruct c as [[] [] [] [] [] [] [] []]; reflexivity.
Qed.

Lemma lstrip_upper (s : string) :
  PyStr.lstrip (PyStr.upper s) = PyStr.upper (PyStr.lstrip s).
Proof.
  induction s as [|c s IH]; simpl; [reflexivity|].
  rewrite is_space_upper_char.
  destruct (PyStr.is_space c); [exact IH | reflexivity].
Qed.

Lemma rstrip_upper (s : string) :
  PyStr.rstrip (PyStr.upper s) = PyStr.upper (PyStr.rstrip s).
Proof.
  induction s as [|c s IH]; simpl; [reflexivity|].
  rewrite IH, is_space_upper_char.
  destruct (PyStr.rstrip s); simpl; [|reflexivity].
  destruct (PyStr.is_space c); reflexivity.
Qed.

Lemma upper_lower_char (c : ascii) :
  PyStr.upper_char (lower_char c) = PyStr.upper_char c.
Proof.
  destruct c as [[] [] [] [] [] [] [] []]; reflexivity.
Qed.

Lemma lower_upper_char (c : ascii) :
  lower_char (PyStr.upper_char c) = lower_char c.
Proof.
  destruct c as [[] [] [] [] [] [] [] []]; reflexivity.
Qed.

Lemma upper_lower (s : string) : PyStr.upper (lower s) = PyStr.upper s.
Proof.
  induction s as [|c s IH]; simpl; [reflexivity|].
  now rewrite upper_lower_char, IH.
Qed.

Lemma lower_upper (s : string) : lower (PyStr.upper s) = lower s.
Proof.
  induction s as [|c s IH]; simpl; [reflexivity|].
  now rewrite lower_upper_char, IH.
Qed.

(** Two texts are equal up to case exactly when [str.upper] makes them
    equal. *)
Lemma eq_ignore_case_upper (a b : string) :
  eq_ignore_case a b <-> PyStr.upper a = PyStr.upper b.
Proof.
  unfold eq_ignore_case. split; intros H.
  - now rewrite <- (upper_lower a), H, upper_lower.
  - now rewrite <- (lower_upper a), H, lower_upper.
Qed.

(** Stripping and upper-casing commute: upper-casing neither makes nor
    removes white space. *)
Lemma strip_upper (s : string) :
  PyStr.strip (PyStr.upper s) = PyStr.upper (PyStr.strip s).
Proof.
  unfold PyStr.strip. now rewrite lstrip_upper, rstrip_upper.
Qed.

(** An answer that is a no-match phrase up to case is one after
    stripping too. *)
Lemma is_no_match_strip (r : string) :
  is_no_match r -> is_no_match (PyStr.strip r).
Proof.
  intros [s [Hin He]]. exists s. split; [assumption|].
  apply eq_ignore_case_upper in He. apply eq_ignore_case_upper.
  rewrite <- strip_upper, He.
  simpl in Hin.
  destruct Hin as [<- | [<- | [<- | [<- | []]]]]; reflexivity.
Qed.

(** The test of the source, [result.upper() in [...]], holds exactly of the
    texts that are a no-match phrase up to case. *)
Lemma is_no_match_in_list (result : string) :
  is_no_match result <->
  PyStr.in_list (PyStr.upper result) no_match_responses = true.
Proof.
  rewrite in_list_In. unfold is_no_match. split.
  - intros [s [Hin He]]. apply eq_ignore_case_upper in He. rewrite He.
    simpl in Hin |- *.
    destruct Hin as [<- | [<- | [<- | [<- | []]]]]; simpl; tauto.
  - simpl. intros [H | [H | [H | [H | []]]]].
    + exists "none". split; [simpl; tauto|].
      apply eq_ignore_case_upper. now rewrite <- H.
    + exists "no chunks". split; [simpl; tauto|].
      apply eq_ignore_case_upper. now rewrite <- H.
    + exists "no match". split; [simpl; tauto|].
      apply eq_ignore_case_upper. now rewrite <- H.
    + exists "no". split; [simpl; tauto|].
      apply eq_ignore_case_upper. now rewrite <- H.
Qed.

Lemma append_nil_r (s : string) : s ++ "" = s.
Proof. induction s as [|c s IH]; simpl; [reflexivity | now rewrite IH]. Qed.

Lemma is_substring_refl (s : string) : is_substring s s.
Proof. exists "", "". simpl. now rewrite append_nil_r. Qed.

Lemma is_substring_trans (a b c : string) :
  is_substring a b -> is_substring b c -> is_substring a c.
Proof.
  intros (p1 & q1 & ->) (p2 & q2 & ->).
  exists (p2 ++ p1), (q1 ++ q2). now rewrite !append_assoc.
Qed.

Lemma take_prefix (n : nat) (s : string) :
  exists post, s = PyStr.take n s ++ post.
Proof.
  revert s. induction n as [|n IH]; intros s.
  - exists s. now destruct s.
  - destruct s as [|c s]; [now exists ""|].
    destruct (IH s) as [post Hpost]. exists post. simpl. now rewrite <- Hpost.
Qed.

(** [s[:n]] is a part of [s], whatever the sign of [n]. *)
Lemma slice_to_substring (n : Z) (s : string) :
  is_substring (PyStr.slice_to n s) s.
Proof.
  unfold PyStr.slice_to.
  destruct (0 <=? n)%Z;
    [destruct (take_prefix (Z.to_nat n) s) as [post H]
    |destruct (take_prefix (String.length s - Z.to_nat (- n)) s) as [post H]];
    exists "", post; simpl; exact H.
Qed.

Lemma lstrip_substring (s : string) : is_substring (PyStr.lstrip s) s.
Proof.
  induction s as [|c s IH]; [apply is_substring_refl|]. simpl.
  destruct (PyStr.is_space c); [|apply is_substring_refl].
  destruct IH as (pre & post & H).
  exists (String c pre), post. simpl. now rewrite <- H.
Qed.

Lemma rstrip_substring (s : string) : is_substring (PyStr.rstrip s) s.
Proof.
  assert (H : exists post, s = PyStr.rstrip s ++ post).
  { induction s as [|c s IH]; [now exists ""|]. simpl.
    destruct IH as [post H].
    destruct (PyStr.rstrip s) as [|c' r'].
    - destruct (PyStr.is_space c); [now exists (String c s)|].
      exists post. simpl in *. now rewrite <- H.
    - exists post. simpl in *. now rewrite <- H. }
  destruct H as [post H]. exists "", post. exact H.
Qed.

(** What [strip] leaves of a text is a part of it. *)
Lemma strip_substring (s : string) : is_substring (PyStr.strip s) s.
Proof.
  unfold PyStr.strip.
  apply (is_substring_trans _ (PyStr.lstrip s));
    [apply rstrip_substring | apply lstrip_substring].
Qed.

End StringFacts.

(** ** Dictionaries *)

Section DictFacts.

Context {V : Type}.
Implicit Types (d : PyDict.t V) (k : string) (v : V).

Lemma mem_keys k d : PyDict.mem k d = true <-> In k (PyDict.keys d).
Proof.
  unfold PyDict.mem. induction d as [|[k' v'] d IH]; simpl.
  - split; [discriminate | tauto].
  - destruct (String.eqb_spec k' k) as [-> | Hne].
    + split; auto.
    + rewrite IH. split; [tauto | intros [H | H]; [contradiction | assumption]].
Qed.

Lemma not_mem_keys k d : PyDict.mem k d = false <-> ~ In k (PyDict.keys d).
Proof.
  rewrite <- mem_keys. destruct (PyDict.mem k d); split; congruence.
Qed.

(** Assigning to an absent key appends the entry. *)
Lemma set_absent k v d :
  ~ In k (PyDict.keys d) -> PyDict.set d k v = (d ++ [(k, v)])%list.
Proof.
  induction d as [|[k' v'] d IH]; simpl; intros Hk; [reflexivity|].
  destruct (String.eqb_spec k' k) as [-> | Hne]; [tauto|].
  rewrite IH; tauto.
Qed.

(** Reading a present key finds the first entry under that key. *)
Lemma get_split k v d :
  PyDict.get d k = Some v ->
  exists before after,
    d = (before ++ (k, v) :: after)%list /\ ~ In k (PyDict.keys before).
Proof.
  induction d as [|[k' v'] d IH]; simpl; [discriminate|].
  destruct (String.eqb_spec k' k) as [-> | Hne].
  - intros [= ->]. exists [], d. split; [reflexivity | simpl; tauto].
  - intros H. destruct (IH H) as (before & after & -> & Hb).
    exists ((k', v') :: before), after. split; [reflexivity|].
    simpl. tauto.
Qed.

Lemma get_middle k v (before after : PyDict.t V) :
  ~ In k (PyDict.keys before) ->
  PyDict.get (before ++ (k, v) :: after)%list k = Some v.
Proof.
  induction before as [|[k' v'] before IH]; simpl; intros Hb.
  - now rewrite String.eqb_refl.
  - destruct (String.eqb_spec k' k) as [-> | Hne]; [tauto|].
    apply IH. tauto.
Qed.

(** Assigning to a present key replaces the value in place. *)
Lemma set_middle k v v' (before after : PyDict.t V) :
  ~ In k (PyDict.keys before) ->
  PyDict.set (before ++ (k, v) :: after)%list k v'
  = (before ++ (k, v') :: after)%list.
Proof.
  induction before as [|[k0 v0] before IH]; simpl; intros Hb.
  - now rewrite String.eqb_refl.
  - destruct (String.eqb_spec k0 k) as [-> | Hne]; [tauto|].
    rewrite IH; tauto.
Qed.

Lemma get_some_mem k d : PyDict.mem k d = true <-> exists v, PyDict.get d k = Some v.
Proof.
  unfold PyDict.mem. destruct (PyDict.get d k) as [v|].
  - split; [now exists v | reflexivity].
  - split; [discriminate | intros [v H]; discriminate].
Qed.

End DictFacts.

(** [find] returns the first element that passes the test. *)
Lemma find_first_such {A} (f : A -> bool) (l : list A) (x : A) :
  find f l = Some x -> first_such (fun y => f y = true) l x.
Proof.
  unfold first_such. induction l as [|a l IH]; simpl; [discriminate|].
  destruct (f a) eqn:Hfa.
  - intros [= ->]. exists [], l. repeat split; [assumption | intros y []].
  - intros H. destruct (IH H) as (before & after & -> & Hx & Hb).
    exists (a :: before), after. repeat split; [assumption|].
    intros y [<- | Hy]; [congruence | now apply Hb].
Qed.

Lemma find_finds {A} (f : A -> bool) (l : list A) :
  (exists y, In y l /\ f y = true) -> exists x, find f l = Some x.
Proof.
  intros [y [Hy Hf]]. destruct (find f l) as [x|] eqn:E; [now exists x|].
  now rewrite (find_none f l E y Hy) in Hf.
Qed.

Lemma find_misses {A} (f : A -> bool) (l : list A) :
  (forall y, In y l -> f y = false) -> find f l = None.
Proof.
  induction l as [|a l IH]; simpl; intros H; [reflexivity|].
  rewrite (H a (or_introl eq_refl)). apply IH. auto.
Qed.

(** ** The placement resolver *)

Section Resolver.

Variable llm : nat -> Query -> option string.
Implicit Types (w : World) (proposition r : string).

Lemma find_relevant_chunk_answered proposition w r :
  answers llm w (placement_query w proposition) r ->
  _find_relevant_chunk llm proposition w
  = Return (match_result (self w) (PyStr.strip r))
           (ask w (placement_query w proposition)).
Proof.
  unfold answers, placement_query, outline_of, _find_relevant_chunk,
    get_chunk_outline, bind, get_self, ret, invoke.
  intros H. simpl in *. now rewrite H.
Qed.

Lemma find_relevant_chunk_failed proposition w :
  fails llm w (placement_query w proposition) ->
  _find_relevant_chunk llm proposition w
  = Raise OracleError (ask w (placement_query w proposition)).
Proof.
  unfold fails, placement_query, outline_of, _find_relevant_chunk,
    get_chunk_outline, bind, get_self, ret, invoke.
  intros H. simpl in *. now rewrite H.
Qed.

Lemma outline_of_empty w : chunks (self w) = [] -> outline_of w = "".
Proof.
  unfold outline_of, get_chunk_outline, bind, get_self, ret.
  intros H. now rewrite H.
Qed.

Lemma match_result_empty (s : AgenticChunker) (result : string) :
  chunks s = [] -> match_result s result = None.
Proof.
  unfold match_result. intros H. rewrite H.
  now destruct (PyStr.in_list (PyStr.upper result) no_match_responses).
Qed.

(** The result of [_find_relevant_chunk], when it is an id, is a key of
    the store. *)
Lemma match_result_known (s : AgenticChunker) (result id : string) :
  match_result s result = Some id -> In id (PyDict.keys (chunks s)).
Proof.
  unfold match_result.
  destruct (PyStr.in_list _ _); [discriminate|].
  destruct (PyDict.mem result (chunks s)) eqn:E1.
  { intros [= <-]. now apply mem_keys. }
  destruct (PyDict.mem (PyStr.slice_to _ result) (chunks s)) eqn:E2.
  { intros [= <-]. now apply mem_keys. }
  intros H. now apply find_some in H.
Qed.

Lemma skipn_length_app {A} (l l' : list A) :
  skipn (length l) (l ++ l') = l'.
Proof. induction l; simpl; auto. Qed.

(** A text in which no key of the store occurs matches by none of the
    three tiers: the text itself and its truncation are parts of it. *)
Lemma match_result_no_id (s : AgenticChunker) (result : string) :
  (forall id, In id (PyDict.keys (chunks s)) -> ~ is_substring id result) ->
  match_result s result = None.
Proof.
  intros Hno. unfold match_result.
  destruct (PyStr.in_list (PyStr.upper result) no_match_responses);
    [reflexivity|].
  destruct (PyDict.mem result (chunks s)) eqn:E1.
  { apply mem_keys in E1. destruct (Hno _ E1). apply is_substring_refl. }
  destruct (PyDict.mem (PyStr.slice_to _ result) (chunks s)) eqn:E2.
  { apply mem_keys in E2. destruct (Hno _ E2). apply slice_to_substring. }
  apply find_misses.
  intros y Hy. destruct (PyStr.contains y result) eqn:E; [|reflexivity].
  apply contains_substring in E. now destruct (Hno y Hy).
Qed.

(** C1.  [_find_relevant_chunk] matches [result], the answer [r] of the
    Oracle to the placement query with the white space at its two ends
    removed ([strip], line 134), not [r] as it comes.  When [result] is no
    no-match phrase, is not a known chunk id, and its truncation to
    [id_truncate_limit] characters is not one either, and some known id
    is a substring of [result], the method returns the first known id, in
    store order, that is a substring of [result].  When no known id is a
    substring of [result], so that none of the three tiers matches, it
    returns [None]; this is so in particular when no known id is a
    substring of the answer [r] as it comes. *)
Theorem find_relevant_chunk_scan proposition w r :
  answers llm w (placement_query w proposition) r ->
  (~ is_no_match (PyStr.strip r) ->
   ~ In (PyStr.strip r) (known_ids w) ->
   ~ In (PyStr.slice_to (id_truncate_limit (self w)) (PyStr.strip r))
        (known_ids w) ->
   (exists id, In id (known_ids w) /\ is_substring id (PyStr.strip r)) ->
   exists id,
     first_such (fun k => is_substring k (PyStr.strip r)) (known_ids w) id
     /\ _find_relevant_chunk llm proposition w
        = Return (Some id) (ask w (placement_query w proposition)))
  /\ ((forall id, In id (known_ids w) -> ~ is_substring id (PyStr.strip r)) ->
      _find_relevant_chunk llm proposition w
      = Return None (ask w (placement_query w proposition)))
  /\ ((forall id, In id (known_ids w) -> ~ is_substring id r) ->
      _find_relevant_chunk llm proposition w
      = Return None (ask w (placement_query w proposition))).
Proof.
  intros Hans.
  rewrite (find_relevant_chunk_answered _ _ _ Hans).
  set (result := PyStr.strip r) in *.
  split; [|split].
  - intros Hn H1 H2 [id [Hid Hsub]].
    apply not_mem_keys in H1, H2.
    unfold match_result, known_ids. rewrite H1, H2.
    rewrite is_no_match_in_list in Hn.
    destruct (PyStr.in_list (PyStr.upper result) no_match_responses);
      [congruence|].
    destruct (find_finds (fun k => PyStr.contains k result)
                         (PyDict.keys (chunks (self w)))) as [x Hx].
    { exists id. split; [assumption | now apply contains_substring]. }
    exists x. split; [|now rewrite Hx].
    destruct (find_first_such _ _ _ Hx) as (b & a & Hl & Hp & Hb).
    exists b, a. repeat split; [assumption | now apply contains_substring |].
    intros y Hy Hs. apply (Hb y Hy). now apply contains_substring.
  - intros Hno. now rewrite match_result_no_id.
  - intros Hno. rewrite match_result_no_id; [reflexivity|].
    intros id Hid Hs. apply (Hno id Hid).
    apply (is_substring_trans _ result); [exact Hs | apply strip_substring].
Qed.

(** C2.  Whatever the store holds, when the answer of the Oracle to the
    placement query equals one of the phrases none, no match, no chunks,
    no up to the case of its letters (as it comes, or once stripped as
    the method reads it), [_find_relevant_chunk] returns [None]. *)
Theorem find_relevant_chunk_no_match_phrase proposition w r :
  answers llm w (placement_query w proposition) r ->
  is_no_match r \/ is_no_match (PyStr.strip r) ->
  _find_relevant_chunk llm proposition w
  = Return None (ask w (placement_query w proposition)).
Proof.
  intros Hans Hr.
  assert (Hs : is_no_match (PyStr.strip r))
    by (destruct Hr; auto using is_no_match_strip).
  rewrite (find_relevant_chunk_answered _ _ _ Hans).
  apply is_no_match_in_list in Hs.
  unfold match_result. now rewrite Hs.
Qed.

(** What [_find_relevant_chunk] does on an empty store. *)
Lemma find_relevant_chunk_on_empty proposition w :
  chunks (self w) = [] ->
  (forall r, answers llm w (PlacementPrompt "" proposition) r ->
             _find_relevant_chunk llm proposition w
             = Return None (ask w (PlacementPrompt "" proposition)))
  /\ (fails llm w (PlacementPrompt "" proposition) ->
      _find_relevant_chunk llm proposition w
      = Raise OracleError (ask w (PlacementPrompt "" proposition)))
  /\ asked_since w (world_of (_find_relevant_chunk llm proposition w))
     = [PlacementPrompt "" proposition]
  /\ self (world_of (_find_relevant_chunk llm proposition w)) = self w.
Proof.
  intros Hempty.
  pose proof (outline_of_empty w Hempty) as Ho.
  assert (Hq : placement_query w proposition = PlacementPrompt "" proposition)
    by (unfold placement_query; now rewrite Ho).
  split; [|split].
  - intros r Hr. rewrite <- Hq in *.
    rewrite (find_relevant_chunk_answered _ _ _ Hr).
    now rewrite match_result_empty.
  - intros Hf. rewrite <- Hq in *. now apply find_relevant_chunk_failed.
  - rewrite <- Hq.
    destruct (llm (length (asked w)) (placement_query w proposition))
      as [r|] eqn:E.
    + rewrite (find_relevant_chunk_answered _ _ _ E). simpl.
      unfold asked_since. simpl. now rewrite skipn_length_app.
    + rewrite (find_relevant_chunk_failed _ _ E). simpl.
      unfold asked_since. simpl. now rewrite skipn_length_app.
Qed.

End Resolver.

(** The Oracle wraps the id of the first chunk in a sentence, and the
    resolver finds it; it answers with blanks only, or with a sentence
    that names no id, and the resolver finds none. *)
Lemma find_relevant_chunk_scan_witness :
  (exists id,
      first_such (fun k => is_substring k "The best match is d41a2.")
                 ["d41a2"; "7f3b9"] id
      /\ _find_relevant_chunk Demo.llm_together "The year is 2023."
                              (Demo.two_chunks true)
         = Return (Some id)
                  (ask (Demo.two_chunks true)
                       (placement_query (Demo.two_chunks true) "The year is 2023.")))
  /\ _find_relevant_chunk Demo.llm_blank "The year is 2023."
                          (Demo.two_chunks true)
     = Return None
              (ask (Demo.two_chunks true)
                   (placement_query (Demo.two_chunks true) "The year is 2023."))
  /\ _find_relevant_chunk Demo.llm_unsure "The year is 2023."
                          (Demo.two_chunks true)
     = Return None
              (ask (Demo.two_chunks true)
                   (placement_query (Demo.two_chunks true) "The year is 2023.")).
Proof.
  split; [|split].
  - apply (proj1 (find_relevant_chunk_scan
                    Demo.llm_together "The year is 2023." (Demo.two_chunks true)
                    "The best match is d41a2." eq_refl)).
    + intros H. apply is_no_match_in_list in H. vm_compute in H. discriminate.
    + vm_compute; intros [H | [H | []]]; discriminate.
    + vm_compute; intros [H | [H | []]]; discriminate.
    + exists "d41a2". split; [simpl; tauto|].
      exists "The best match is ", ".". reflexivity.
  - apply (proj1 (proj2 (find_relevant_chunk_scan
                    Demo.llm_blank "The year is 2023." (Demo.two_chunks true)
                    "  " eq_refl))).
    intros id [<- | [<- | []]] Hs;
      apply contains_substring in Hs; vm_compute in Hs; discriminate.
  - apply (proj2 (proj2 (find_relevant_chunk_scan
                    Demo.llm_unsure "The year is 2023." (Demo.two_chunks true)
                    "I am not sure." eq_refl))).
    intros id [<- | [<- | []]] Hs;
      apply contains_substring in Hs; vm_compute in Hs; discriminate.
Defined.

(** C1 as stated, on the answer as it comes, fails.  The store holds
    [d41a2] and [7f3b9] in this order and the Oracle answers
    [" 7f3b9, not d41a2"].  This answer is no no-match phrase and no known
    id, and its first five characters, [" 7f3b"], are no known id; the
    first known id that occurs in it, in store order, is [d41a2].  The
    method strips the answer, finds that the first five characters of
    what is left are a known id, and returns [7f3b9]. *)
Lemma find_relevant_chunk_scan_raw_answer :
  known_ids (Demo.two_chunks true) = ["d41a2"; "7f3b9"]
  /\ answers Demo.llm_padded (Demo.two_chunks true)
             (placement_query (Demo.two_chunks true) "I like pasta.")
             " 7f3b9, not d41a2"
  /\ ~ is_no_match " 7f3b9, not d41a2"
  /\ ~ In " 7f3b9, not d41a2" (known_ids (Demo.two_chunks true))
  /\ PyStr.slice_to (id_truncate_limit (self (Demo.two_chunks true)))
                    " 7f3b9, not d41a2" = " 7f3b"
  /\ ~ In " 7f3b" (known_ids (Demo.two_chunks true))
  /\ first_such (fun k => is_substring k " 7f3b9, not d41a2")
                (known_ids (Demo.two_chunks true)) "d41a2"
  /\ _find_relevant_chunk Demo.llm_padded "I like pasta." (Demo.two_chunks true)
     = Return (Some "7f3b9")
              (ask (Demo.two_chunks true)
                   (placement_query (Demo.two_chunks true) "I like pasta."))
  /\ ~ (forall llm proposition w r,
           chunks (self w) <> [] ->
           answers llm w (placement_query w proposition) r ->
           ~ is_no_match r ->
           ~ In r (known_ids w) ->
           ~ In (PyStr.slice_to (id_truncate_limit (self w)) r) (known_ids w) ->
           (exists id, In id (known_ids w) /\ is_substring id r) ->
           exists id,
             first_such (fun k => is_substring k r) (known_ids w) id
             /\ _find_relevant_chunk llm proposition w
                = Return (Some id) (ask w (placement_query w proposition))).
Proof.
  assert (Hn : ~ is_no_match " 7f3b9, not d41a2").
  { intros H. apply is_no_match_in_list in H. vm_compute in H. discriminate. }
  assert (H1 : ~ In " 7f3b9, not d41a2" (known_ids (Demo.two_chunks true))).
  { vm_compute; intros [H | [H | []]]; discriminate. }
  assert (H2 : ~ In " 7f3b" (known_ids (Demo.two_chunks true))).
  { vm_compute; intros [H | [H | []]]; discriminate. }
  assert (Hs : is_substring "d41a2" " 7f3b9, not d41a2").
  { exists " 7f3b9, not ", "". reflexivity. }
  repeat (split; [first [reflexivity | assumption]|]).
  split; [|split; [reflexivity|]].
  - exists [], ["7f3b9"]. split; [reflexivity | split; [exact Hs|]].
    intros y [].
  - intros H.
    destruct (H Demo.llm_padded "I like pasta." (Demo.two_chunks true)
                " 7f3b9, not d41a2")
      as (id & (before & after & Hl & _ & Hb) & Hr);
      [discriminate | reflexivity | exact Hn | exact H1 | exact H2 | |].
    { exists "d41a2". split; [simpl; tauto | exact Hs]. }
    vm_compute in Hr. injection Hr as <-.
    destruct before as [|x before]; [discriminate Hl|].
    injection Hl as Hx _. subst x.
    apply (Hb "d41a2"); [now left | exact Hs].
Qed.

Lemma find_relevant_chunk_no_match_phrase_witness :
  is_no_match "No match"
  /\ _find_relevant_chunk Demo.llm_apart "The year is 2023." (Demo.two_chunks true)
     = Return None
              (ask (Demo.two_chunks true)
                   (placement_query (Demo.two_chunks true) "The year is 2023.")).
Proof.
  assert (H : is_no_match "No match").
  { exists "no match". split; [simpl; tauto | reflexivity]. }
  split; [exact H|].
  apply (find_relevant_chunk_no_match_phrase
           Demo.llm_apart "The year is 2023." (Demo.two_chunks true)
           "No match" eq_refl (or_introl H)).
Defined.

(** C3 as stated fails: on the empty store of a fresh object the resolver
    sends a placement query before it returns. *)
Lemma find_relevant_chunk_empty_store_asks :
  chunks (self __init__) = []
  /\ asked_since __init__
       (world_of (_find_relevant_chunk Demo.llm_together
                                       "The month is October." __init__))
     = [PlacementPrompt "" "The month is October."]
  /\ ~ (forall llm proposition w,
           chunks (self w) = [] ->
           _find_relevant_chunk llm proposition w = Return None w).
Proof.
  split; [reflexivity | split; [reflexivity|]].
  intros H.
  specialize (H Demo.llm_together "The month is October." __init__ eq_refl).
  vm_compute in H. discriminate H.
Qed.

(** ** Creating a chunk and appending to one *)

Ltac dict_steps :=
  simpl;
  repeat (first [ rewrite get_middle by assumption
                | rewrite set_middle by assumption ]; simpl).

Section Store.

Variable llm : nat -> Query -> option string.
Variable uuid4 : nat -> string.
Implicit Types (w : World) (c : Chunk) (proposition id : string).

(** The three ways [_create_new_chunk] ends: the summary call fails, the
    title call fails, or both answer and the chunk is stored. *)
Lemma create_new_chunk_run proposition w :
  _create_new_chunk llm uuid4 proposition w
  = match llm (length (asked w)) (NewSummaryPrompt proposition) with
    | None => Raise OracleError (ask (drew w) (NewSummaryPrompt proposition))
    | Some r1 =>
        match llm (length (asked w ++ [NewSummaryPrompt proposition]))
                  (NewTitlePrompt (PyStr.strip r1)) with
        | None =>
            Raise OracleError
                  (ask (ask (drew w) (NewSummaryPrompt proposition))
                       (NewTitlePrompt (PyStr.strip r1)))
        | Some r2 =>
            Return tt
              (counted
                 (with_store
                    (ask (ask (drew w) (NewSummaryPrompt proposition))
                         (NewTitlePrompt (PyStr.strip r1)))
                    (PyDict.set (chunks (self w)) (drawn_id uuid4 w (draws w))
                                (new_chunk uuid4 w proposition r1 r2))))
        end
    end.
Proof.
  unfold _create_new_chunk, bind, get_self, str_uuid4, _get_new_chunk_summary,
    _get_new_chunk_title, invoke, ret, setitem, put_chunks, tick_created,
    bind, get_self, ask.
  simpl.
  destruct (llm _ _) as [r1|]; [|reflexivity]. simpl.
  destruct (llm _ _) as [r2|]; reflexivity.
Qed.

Lemma create_new_chunk_returns proposition w r1 r2 :
  answers llm w (NewSummaryPrompt proposition) r1 ->
  answers llm (ask w (NewSummaryPrompt proposition))
          (NewTitlePrompt (PyStr.strip r1)) r2 ->
  _create_new_chunk llm uuid4 proposition w
  = Return tt
      (counted
         (with_store
            (ask (ask (drew w) (NewSummaryPrompt proposition))
                 (NewTitlePrompt (PyStr.strip r1)))
            (PyDict.set (chunks (self w)) (drawn_id uuid4 w (draws w))
                        (new_chunk uuid4 w proposition r1 r2)))).
Proof.
  unfold answers, ask. simpl. intros H1 H2.
  now rewrite create_new_chunk_run, H1, H2.
Qed.

(** [_create_new_chunk] sends no placement query. *)
Lemma create_new_chunk_asks proposition w q :
  In q (asked_since w (world_of (_create_new_chunk llm uuid4 proposition w))) ->
  is_placement q = false.
Proof.
  rewrite create_new_chunk_run. unfold asked_since.
  destruct (llm _ _) as [r1|]; [destruct (llm _ _) as [r2|]|]; simpl;
    rewrite <- ?app_assoc, skipn_length_app; simpl;
    intuition (subst; reflexivity).
Qed.

(** The ways [add_proposition_to_chunk] ends on a chunk that exists. *)
Lemma add_proposition_to_chunk_run id proposition w c before after :
  chunks (self w) = (before ++ (id, c) :: after)%list ->
  ~ In id (PyDict.keys before) ->
  add_proposition_to_chunk llm id proposition w
  = if generate_new_metadata_ind (self w) then
      match llm (length (asked w)) (summary_query (appended c proposition)) with
      | None =>
          Raise OracleError
            (ask (with_store w (before ++ (id, appended c proposition) :: after)%list)
                 (summary_query (appended c proposition)))
      | Some r1 =>
          match llm (length (asked w ++ [summary_query (appended c proposition)]))
                    (title_query (with_summary (appended c proposition)
                                               (PyStr.strip r1))) with
          | None =>
              Raise OracleError
                (ask (ask (with_store w
                             (before
                                ++ (id, with_summary (appended c proposition)
                                                     (PyStr.strip r1)) :: after)%list)
                          (summary_query (appended c proposition)))
                     (title_query (with_summary (appended c proposition)
                                                (PyStr.strip r1))))
          | Some r2 =>
              Return tt
                (ask (ask (with_store w
                             (before
                                ++ (id, with_title
                                          (with_summary (appended c proposition)
                                                        (PyStr.strip r1))
                                          (PyStr.strip r2)) :: after)%list)
                          (summary_query (appended c proposition)))
                     (title_query (with_summary (appended c proposition)
                                                (PyStr.strip r1))))
          end
      end
    else Return tt (with_store w (before ++ (id, appended c proposition) :: after)%list).
Proof.
  destruct w as [[ch lim gen pl] ak dr cr]. simpl. intros -> Hb.
  unfold add_proposition_to_chunk, bind, getitem, setitem, get_self,
    put_chunks, ret, raise, bind, get_self, with_chunks.
  dict_steps. destruct gen; [|reflexivity].
  dict_steps.
  unfold _update_chunk_summary, _update_chunk_title, bind, invoke, ret, ask.
  simpl. fold (appended c proposition).
  fold (summary_query (appended c proposition)).
  destruct (llm _ _) as [r1|]; [|reflexivity].
  dict_steps.
  destruct (llm _ _) as [r2|]; [|reflexivity].
  dict_steps. reflexivity.
Qed.

Lemma length_set_present (d : PyDict.t Chunk) id c :
  In id (PyDict.keys d) -> length (PyDict.set d id c) = length d.
Proof.
  induction d as [|[k v] d IH]; simpl; [tauto|].
  destruct (String.eqb_spec k id) as [-> | Hne]; [reflexivity|].
  intros [H | H]; [contradiction|]. simpl. now rewrite IH.
Qed.

(** C5, as the code has it.  [_create_new_chunk] uses the id it draws
    without looking it up.  When the two Oracle calls answer: if the id
    is not a key of the store, the new chunk is added at the end, the
    chunks already stored are untouched and the store has one chunk
    more; if the id is a key of the store, the chunk stored under it is
    replaced by the new chunk and the store keeps its size. *)
Theorem create_new_chunk_insert proposition w r1 r2 :
  answers llm w (NewSummaryPrompt proposition) r1 ->
  answers llm (ask w (NewSummaryPrompt proposition))
          (NewTitlePrompt (PyStr.strip r1)) r2 ->
  exists w',
    _create_new_chunk llm uuid4 proposition w = Return tt w'
    /\ (~ In (drawn_id uuid4 w (draws w)) (known_ids w) ->
        chunks (self w')
        = (chunks (self w)
             ++ [(drawn_id uuid4 w (draws w),
                  new_chunk uuid4 w proposition r1 r2)])%list
        /\ length (chunks (self w')) = S (length (chunks (self w))))
    /\ (In (drawn_id uuid4 w (draws w)) (known_ids w) ->
        length (chunks (self w')) = length (chunks (self w))
        /\ exists before old after,
            chunks (self w)
            = (before ++ (drawn_id uuid4 w (draws w), old) :: after)%list
            /\ ~ In (drawn_id uuid4 w (draws w)) (PyDict.keys before)
            /\ chunks (self w')
               = (before ++ (drawn_id uuid4 w (draws w),
                             new_chunk uuid4 w proposition r1 r2) :: after)%list).
Proof.
  intros H1 H2. rewrite (create_new_chunk_returns _ _ _ _ H1 H2).
  eexists. split; [reflexivity|]. simpl. split.
  - intros Hfresh. rewrite (set_absent _ _ _ Hfresh).
    split; [reflexivity|]. rewrite length_app. simpl. lia.
  - intros Hin. split; [now apply length_set_present|].
    apply mem_keys, get_some_mem in Hin. destruct Hin as [old Hold].
    destruct (get_split _ _ _ Hold) as (before & after & Heq & Hb).
    exists before, old, after. split; [assumption|]. split; [assumption|].
    rewrite Heq. now apply set_middle.
Qed.

(** C7.  On an empty store [add_proposition] is [_create_new_chunk]: it
    sends no placement query, and once the Oracle has answered the two
    queries of the creation the store holds one chunk, of index 0, whose
    only proposition is the one given. *)
Theorem add_proposition_first proposition w :
  chunks (self w) = [] ->
  add_proposition llm uuid4 proposition w
  = _create_new_chunk llm uuid4 proposition w
  /\ (forall q,
        In q (asked_since w (world_of (add_proposition llm uuid4 proposition w))) ->
        is_placement q = false)
  /\ (forall r1 r2,
        answers llm w (NewSummaryPrompt proposition) r1 ->
        answers llm (ask w (NewSummaryPrompt proposition))
                (NewTitlePrompt (PyStr.strip r1)) r2 ->
        exists w',
          add_proposition llm uuid4 proposition w = Return tt w'
          /\ chunks (self w')
             = [(drawn_id uuid4 w (draws w),
                 mkChunk (drawn_id uuid4 w (draws w)) [proposition]
                         (PyStr.strip r2) (PyStr.strip r1) 0)]).
Proof.
  intros Hempty.
  assert (Hadd : add_proposition llm uuid4 proposition w
                 = _create_new_chunk llm uuid4 proposition w).
  { unfold add_proposition, bind, get_self. now rewrite Hempty. }
  rewrite Hadd. split; [reflexivity|]. split.
  - intros q. apply create_new_chunk_asks.
  - intros r1 r2 H1 H2. rewrite (create_new_chunk_returns _ _ _ _ H1 H2).
    eexists. split; [reflexivity|]. simpl.
    unfold new_chunk. now rewrite Hempty.
Qed.

(** C3, as the code has it.  On an empty store [_find_relevant_chunk]
    has no short cut: it sends one placement query, made of the empty
    outline; whatever text the Oracle answers, the method returns
    [None] and leaves the object as it was; when the Oracle fails, so
    does the method.  The short cut is in the caller: on an empty store
    [add_proposition] sends no placement query. *)
Theorem find_relevant_chunk_empty_store proposition w :
  chunks (self w) = [] ->
  (forall r, answers llm w (PlacementPrompt "" proposition) r ->
             _find_relevant_chunk llm proposition w
             = Return None (ask w (PlacementPrompt "" proposition)))
  /\ (fails llm w (PlacementPrompt "" proposition) ->
      _find_relevant_chunk llm proposition w
      = Raise OracleError (ask w (PlacementPrompt "" proposition)))
  /\ asked_since w (world_of (_find_relevant_chunk llm proposition w))
     = [PlacementPrompt "" proposition]
  /\ self (world_of (_find_relevant_chunk llm proposition w)) = self w
  /\ (forall q,
        In q (asked_since w (world_of (add_proposition llm uuid4 proposition w))) ->
        is_placement q = false).
Proof.
  intros Hempty.
  destruct (find_relevant_chunk_on_empty llm proposition w Hempty)
    as (Hanswer & Hfail & Hasked & Hself).
  repeat split; try assumption.
  intros q. unfold add_proposition, bind, get_self. rewrite Hempty. simpl.
  apply create_new_chunk_asks.
Qed.

(** C9.  With [generate_new_metadata_ind] false, appending to a chunk
    that exists returns, sends nothing to the Oracle, and changes the
    store at one place only: the chunk under the given id has the
    proposition added at the end of its propositions and every other
    field as before; the chunks before and after it are as before. *)
Theorem add_proposition_to_chunk_frozen id proposition w c :
  generate_new_metadata_ind (self w) = false ->
  PyDict.get (chunks (self w)) id = Some c ->
  exists before after c' w',
    add_proposition_to_chunk llm id proposition w = Return tt w'
    /\ chunks (self w) = (before ++ (id, c) :: after)%list
    /\ ~ In id (PyDict.keys before)
    /\ chunks (self w') = (before ++ (id, c') :: after)%list
    /\ propositions c' = (propositions c ++ [proposition])%list
    /\ title c' = title c /\ summary c' = summary c
    /\ chunk_id c' = chunk_id c /\ chunk_index c' = chunk_index c
    /\ asked w' = asked w.
Proof.
  intros Hg Hget.
  destruct (get_split _ _ _ Hget) as (before & after & Heq & Hb).
  exists before, after, (appended c proposition),
    (with_store w (before ++ (id, appended c proposition) :: after)%list).
  rewrite (add_proposition_to_chunk_run _ _ _ _ _ _ Heq Hb), Hg.
  repeat split; assumption.
Qed.

(** C4, as the code has it.  A creation whose summary call or title call
    fails raises and leaves the object as it was: the chunk is stored
    only after both calls.  A refresh has no way back: the proposition
    is appended before the Oracle is asked, so when the summary call
    fails the chunk keeps the new proposition with its old summary and
    title, and when the title call fails the chunk keeps the new
    proposition and the new summary with its old title. *)
Theorem oracle_failure_effects proposition w :
  ((fails llm w (NewSummaryPrompt proposition)
    \/ exists r1, answers llm w (NewSummaryPrompt proposition) r1
                  /\ fails llm (ask w (NewSummaryPrompt proposition))
                           (NewTitlePrompt (PyStr.strip r1))) ->
   exists w', _create_new_chunk llm uuid4 proposition w = Raise OracleError w'
              /\ self w' = self w)
  /\ (forall id c,
        generate_new_metadata_ind (self w) = true ->
        PyDict.get (chunks (self w)) id = Some c ->
        exists before after,
          chunks (self w) = (before ++ (id, c) :: after)%list
          /\ ~ In id (PyDict.keys before)
          /\ (fails llm w (summary_query (appended c proposition)) ->
              exists w',
                add_proposition_to_chunk llm id proposition w
                = Raise OracleError w'
                /\ chunks (self w')
                   = (before ++ (id, appended c proposition) :: after)%list)
          /\ (forall r1,
                answers llm w (summary_query (appended c proposition)) r1 ->
                fails llm (ask w (summary_query (appended c proposition)))
                      (title_query (with_summary (appended c proposition)
                                                 (PyStr.strip r1))) ->
                exists w',
                  add_proposition_to_chunk llm id proposition w
                  = Raise OracleError w'
                  /\ chunks (self w')
                     = (before
                          ++ (id, with_summary (appended c proposition)
                                               (PyStr.strip r1)) :: after)%list)).
Proof.
  split.
  - rewrite create_new_chunk_run. unfold fails, answers, ask. simpl.
    intros [H | [r1 [H1 H2]]].
    + rewrite H. eexists. split; reflexivity.
    + rewrite H1, H2. eexists. split; reflexivity.
  - intros id c Hg Hget.
    destruct (get_split _ _ _ Hget) as (before & after & Heq & Hb).
    exists before, after. split; [assumption|]. split; [assumption|].
    rewrite (add_proposition_to_chunk_run _ _ _ _ _ _ Heq Hb), Hg.
    unfold fails, answers, ask. simpl. split.
    + intros H. rewrite H. eexists. split; reflexivity.
    + intros r1 H1 H2. rewrite H1, H2. eexists. split; reflexivity.
Qed.

End Store.

(** On the empty store of a fresh object the resolver returns [None] to an
    Oracle that names a chunk. *)
Lemma find_relevant_chunk_empty_store_witness :
  chunks (self __init__) = []
  /\ _find_relevant_chunk Demo.llm_together "The month is October." __init__
     = Return None (ask __init__ (PlacementPrompt "" "The month is October.")).
Proof.
  split; [reflexivity|].
  apply (proj1 (find_relevant_chunk_empty_store
                  Demo.llm_together Demo.uuids "The month is October."
                  __init__ eq_refl)
               "The best match is d41a2." eq_refl).
Defined.

(** A second chunk is created next to the first when the id drawn is new;
    a third creation that draws the id of the first chunk leaves two
    chunks. *)
Lemma create_new_chunk_insert_witness :
  (exists w',
      _create_new_chunk Demo.llm_apart Demo.uuids "I like pizza." Demo.one_chunk
      = Return tt w'
      /\ chunks (self w')
         = [("d41a2", Demo.october);
            ("7f3b9", mkChunk "7f3b9" ["I like pizza."] "Topic"
                              "About: I like pizza." 1)]
      /\ length (chunks (self w')) = 2)
  /\ (exists w',
         _create_new_chunk Demo.llm_apart Demo.uuids "The year is 2023."
                           Demo.after_two
         = Return tt w'
         /\ length (chunks (self w')) = 2).
Proof.
  split.
  - destruct (create_new_chunk_insert
                Demo.llm_apart Demo.uuids "I like pizza." Demo.one_chunk
                "About: I like pizza." "Topic" eq_refl eq_refl)
      as (w' & Hrun & Hfresh & _).
    exists w'. split; [exact Hrun|].
    apply Hfresh. vm_compute. intros [H | []]. discriminate.
  - destruct (create_new_chunk_insert
                Demo.llm_apart Demo.uuids "The year is 2023." Demo.after_two
                "About: The year is 2023." "Topic" eq_refl eq_refl)
      as (w' & Hrun & _ & Hcollides).
    exists w'. split; [exact Hrun|].
    apply Hcollides. vm_compute. left. reflexivity.
Defined.

(** C5 as stated fails: the third creation on a fresh object draws the id
    of the first chunk again; the chunk of the first proposition is
    replaced and the store still has two chunks. *)
Lemma create_new_chunk_overwrites :
  PyDict.get (chunks (self Demo.after_two)) "d41a2"
  = Some (mkChunk "d41a2" ["The month is October."] "Topic"
                  "About: The month is October." 0)
  /\ drawn_id Demo.uuids Demo.after_two (draws Demo.after_two) = "d41a2"
  /\ exists w',
      _create_new_chunk Demo.llm_apart Demo.uuids "The year is 2023."
                        Demo.after_two
      = Return tt w'
      /\ length (chunks (self w')) = length (chunks (self Demo.after_two))
      /\ PyDict.get (chunks (self w')) "d41a2"
         = Some (mkChunk "d41a2" ["The year is 2023."] "Topic"
                         "About: The year is 2023." 2).
Proof.
  split; [reflexivity | split; [reflexivity|]].
  exists (world_of (_create_new_chunk Demo.llm_apart Demo.uuids
                                      "The year is 2023." Demo.after_two)).
  repeat split; vm_compute; reflexivity.
Qed.

Lemma add_proposition_first_witness :
  chunks (self __init__) = []
  /\ exists w',
      add_proposition Demo.llm_together Demo.uuids "The month is October." __init__
      = Return tt w'
      /\ chunks (self w')
         = [("d41a2", mkChunk "d41a2" ["The month is October."] "Dates & Time"
                              "Statements about the date." 0)].
Proof.
  split; [reflexivity|].
  exact (proj2 (proj2 (add_proposition_first
                         Demo.llm_together Demo.uuids "The month is October."
                         __init__ eq_refl))
               " Statements about the date. " "Dates & Time" eq_refl eq_refl).
Defined.

Lemma add_proposition_to_chunk_frozen_witness :
  exists before after c' w',
    add_proposition_to_chunk Demo.llm_down "7f3b9" "I like pasta."
                             (Demo.two_chunks false)
    = Return tt w'
    /\ chunks (self (Demo.two_chunks false))
       = (before ++ ("7f3b9", Demo.pizza) :: after)%list
    /\ ~ In "7f3b9" (PyDict.keys before)
    /\ chunks (self w') = (before ++ ("7f3b9", c') :: after)%list
    /\ propositions c' = ["I like pizza."; "I like pasta."]
    /\ title c' = "Food Preferences" /\ summary c' = "Statements about food."
    /\ chunk_id c' = "7f3b9" /\ chunk_index c' = 1
    /\ asked w' = [].
Proof.
  exact (add_proposition_to_chunk_frozen
           Demo.llm_down "7f3b9" "I like pasta." (Demo.two_chunks false)
           Demo.pizza eq_refl eq_refl).
Defined.

Lemma oracle_failure_effects_witness :
  (exists w',
      _create_new_chunk Demo.llm_down Demo.uuids "I like pizza." Demo.one_chunk
      = Raise OracleError w'
      /\ self w' = self Demo.one_chunk)
  /\ exists before after w',
      chunks (self Demo.one_chunk) = (before ++ ("d41a2", Demo.october) :: after)%list
      /\ add_proposition_to_chunk Demo.llm_title_fails "d41a2" "The year is 2023."
                                  Demo.one_chunk
         = Raise OracleError w'
      /\ chunks (self w')
         = (before
              ++ ("d41a2",
                  mkChunk "d41a2" ["The month is October."; "The year is 2023."]
                          "Dates & Time" "Statements about the current date." 0)
              :: after)%list.
Proof.
  split.
  - apply (proj1 (oracle_failure_effects Demo.llm_down Demo.uuids
                                         "I like pizza." Demo.one_chunk)).
    left. reflexivity.
  - destruct (proj2 (oracle_failure_effects Demo.llm_title_fails Demo.uuids
                                            "The year is 2023." Demo.one_chunk)
                    "d41a2" Demo.october eq_refl eq_refl)
      as (before & after & Heq & _ & _ & Htitle).
    destruct (Htitle "Statements about the current date." eq_refl eq_refl)
      as (w' & Hrun & Hw').
    exists before, after, w'. repeat split; assumption.
Defined.

(** C4 as stated fails: a fresh object takes a first proposition, then a
    second one that the Oracle places in the same chunk; the summary is
    refreshed, the title call fails, and the chunk is left with the new
    proposition and the new summary under the old title. *)
Lemma refresh_failure_leaves_new_summary_old_title :
  chunks (self Demo.after_october)
  = [("d41a2", mkChunk "d41a2" ["The month is October."] "Dates & Time"
                       "Statements about the date." 0)]
  /\ exists w',
      add_proposition Demo.llm_title_fails Demo.uuids "The year is 2023."
                      Demo.after_october
      = Raise OracleError w'
      /\ chunks (self w')
         = [("d41a2",
             mkChunk "d41a2" ["The month is October."; "The year is 2023."]
                     "Dates & Time" "Statements about the current date." 0)].
Proof.
  split; [reflexivity|].
  exists (world_of (add_proposition Demo.llm_title_fails Demo.uuids
                                    "The year is 2023." Demo.after_october)).
  split; vm_compute; reflexivity.
Qed.

(** ** The views of [get_chunks] *)

Section Views.

Implicit Types (w : World).

Lemma fold_join (rest : list string) (text : string) :
  fold_left (fun text q => text ++ " " ++ q) rest text
  = match rest with
    | [] => text
    | _ => text ++ " " ++ PyStr.join " " rest
    end.
Proof.
  revert text. induction rest as [|q rest IH]; intros text; [reflexivity|].
  simpl fold_left. rewrite IH. destruct rest as [|q' rest]; [reflexivity|].
  change (PyStr.join " " (q :: q' :: rest))
    with (q ++ " " ++ PyStr.join " " (q' :: rest)).
  now rewrite !append_assoc.
Qed.

(** [" ".join] writes the elements one after the other with one space
    between two neighbours. *)
Lemma join_space_joined (ps : list string) :
  PyStr.join " " ps = space_joined ps.
Proof.
  destruct ps as [|p rest]; [reflexivity|].
  unfold space_joined. rewrite fold_join. now destruct rest.
Qed.

(** C8.  [get_chunks('list_of_strings')] returns, without changing
    anything, the list that has one string for each stored chunk, in
    store order: the propositions of the chunk, in the order in which
    they are stored, with one space between two neighbours. *)
Theorem get_chunks_list_of_strings w :
  get_chunks (PyString "list_of_strings") w
  = Return (ViewList (map (fun c => space_joined (propositions c))
                          (PyDict.values (chunks (self w))))) w
  /\ length (map (fun c => space_joined (propositions c))
                 (PyDict.values (chunks (self w))))
     = length (chunks (self w)).
Proof.
  split.
  - unfold get_chunks, bind, get_self, ret. simpl. do 2 f_equal.
    apply map_ext. intros c. apply join_space_joined.
  - unfold PyDict.values. now rewrite !length_map.
Qed.

(** C10.  For a [get_type] that is neither the string dict nor the
    string list_of_strings, [get_chunks] falls off its end: it returns
    [None], raises nothing and changes nothing. *)
Theorem get_chunks_other_mode get_type w :
  get_type <> PyString "dict" ->
  get_type <> PyString "list_of_strings" ->
  get_chunks get_type w = Return ViewNone w.
Proof.
  intros Hd Hl. unfold get_chunks, bind, get_self, ret.
  destruct get_type as [| b | z | s | b | t]; try reflexivity.
  unfold py_eq_str.
  destruct (String.eqb_spec s "dict") as [-> | _]; [congruence|].
  destruct (String.eqb_spec s "list_of_strings") as [-> | _]; [congruence|].
  reflexivity.
Qed.

End Views.

Lemma get_chunks_other_mode_witness :
  get_chunks (PyString "List_Of_Strings") (Demo.two_chunks true)
  = Return ViewNone (Demo.two_chunks true)
  /\ get_chunks PyNone (Demo.two_chunks true)
     = Return ViewNone (Demo.two_chunks true).
Proof.
  split.
  - apply (get_chunks_other_mode (PyString "List_Of_Strings")
                                 (Demo.two_chunks true)); discriminate.
  - apply (get_chunks_other_mode PyNone (Demo.two_chunks true)); discriminate.
Defined.

(** The two scenarios of the specification. *)
Example scenario_related :
  get_chunks (PyString "list_of_strings")
             (world_of (add_propositions Demo.llm_together Demo.uuids
                          ["The month is October."; "The year is 2023."]
                          __init__))
  = Return (ViewList ["The month is October. The year is 2023."])
           (world_of (add_propositions Demo.llm_together Demo.uuids
                        ["The month is October."; "The year is 2023."]
                        __init__)).
Proof. vm_compute. reflexivity. Qed.

Example scenario_unrelated :
  map (fun c => (propositions c, chunk_index c))
      (PyDict.values
         (chunks (self (world_of (add_propositions Demo.llm_apart Demo.uuids
                                    ["The month is October."; "The year is 2023."]
                                    __init__)))))
  = [(["The month is October."], 0); (["The year is 2023."], 1)].
Proof. vm_compute. reflexivity. Qed.

(** ** The indices of the chunks *)

Section Indices.

Variable llm : nat -> Query -> option string.
Variable uuid4 : nat -> string.
Implicit Types (w : World) (c : Chunk) (proposition id : string).

Lemma extends_refl w : extends uuid4 w w.
Proof. split; [reflexivity | split; [lia | tauto]]. Qed.

Lemma extends_trans w1 w2 w3 :
  extends uuid4 w1 w2 -> extends uuid4 w2 w3 -> extends uuid4 w1 w3.
Proof.
  intros (L12 & D12 & I12) (L23 & D23 & I23).
  split; [congruence|]. split; [lia|].
  intros Hfree Hinv. apply I23; [assumption|]. apply I12; [|assumption].
  intros i j Hij. unfold drawn_id. rewrite <- L23.
  apply (Hfree i j). lia.
Qed.

Lemma extends_ask w q : extends uuid4 w (ask w q).
Proof.
  split; [reflexivity | split; [simpl; lia | intros _ H; exact H]].
Qed.

Lemma indices_app (d d' : PyDict.t Chunk) :
  map chunk_index (PyDict.values (d ++ d')%list)
  = (map chunk_index (PyDict.values d)
       ++ map chunk_index (PyDict.values d'))%list.
Proof. unfold PyDict.values. now rewrite !map_app. Qed.

Lemma keys_app (d d' : PyDict.t Chunk) :
  PyDict.keys (d ++ d')%list = (PyDict.keys d ++ PyDict.keys d')%list.
Proof. unfold PyDict.keys. now rewrite map_app. Qed.

(** A creation keeps the invariant: the id it draws differs from every
    earlier one, so the chunk goes to the end of the store with the
    size of the store as its index. *)
Lemma extends_create proposition w :
  extends uuid4 w (world_of (_create_new_chunk llm uuid4 proposition w)).
Proof.
  rewrite create_new_chunk_run.
  destruct (llm _ _) as [r1|]; [destruct (llm _ _) as [r2|]|]; simpl.
  - split; [reflexivity|]. split; [simpl; lia|].
    intros Hfree (Hkeys & Hidx & Hcnt).
    assert (Hfresh : ~ In (drawn_id uuid4 w (draws w)) (known_ids w)).
    { intros Hin. destruct (Hkeys _ Hin) as (i & Hi & He).
      apply (Hfree i (draws w)); [simpl; lia|]. exact (eq_sym He). }
    unfold store_inv, known_ids, indices in *. simpl.
    rewrite (set_absent _ _ _ Hfresh). split; [|split].
    + intros k Hk. rewrite keys_app in Hk. apply in_app_or in Hk.
      destruct Hk as [Hk | [<- | []]].
      * destruct (Hkeys k Hk) as (i & Hi & He).
        exists i. split; [lia | exact He].
      * exists (draws w). split; [lia | reflexivity].
    + rewrite indices_app, length_app, Hidx. simpl.
      now rewrite Nat.add_1_r, seq_S.
    + rewrite length_app. simpl. lia.
  - split; [reflexivity|]. split; [simpl; lia|].
    intros _ (Hkeys & Hidx & Hcnt). repeat split; try assumption.
    intros k Hk. destruct (Hkeys k Hk) as (i & Hi & He).
    exists i. split; [simpl; lia | exact He].
  - split; [reflexivity|]. split; [simpl; lia|].
    intros _ (Hkeys & Hidx & Hcnt). repeat split; try assumption.
    intros k Hk. destruct (Hkeys k Hk) as (i & Hi & He).
    exists i. split; [simpl; lia | exact He].
Qed.

(** Replacing one chunk by a chunk of the same index keeps it too. *)
Lemma extends_replace w before after id c c' (w' : World) :
  chunks (self w) = (before ++ (id, c) :: after)%list ->
  chunks (self w') = (before ++ (id, c') :: after)%list ->
  chunk_index c' = chunk_index c ->
  id_truncate_limit (self w') = id_truncate_limit (self w) ->
  draws w' = draws w -> created w' = created w ->
  extends uuid4 w w'.
Proof.
  intros Hw Hw' Hi Hl Hd Hc. split; [assumption|]. split; [lia|].
  intros _ (Hkeys & Hidx & Hcnt).
  unfold store_inv, known_ids, indices, drawn_id in *.
  rewrite Hw, Hw', Hl, Hd, Hc in *.
  rewrite keys_app, indices_app, length_app in *. simpl in *.
  rewrite Hi. auto.
Qed.

Lemma extends_append id proposition w :
  In id (known_ids w) ->
  extends uuid4 w (world_of (add_proposition_to_chunk llm id proposition w)).
Proof.
  intros Hin. apply mem_keys, get_some_mem in Hin. destruct Hin as [c Hc].
  destruct (get_split _ _ _ Hc) as (before & after & Heq & Hb).
  rewrite (add_proposition_to_chunk_run _ _ _ _ _ _ _ Heq Hb).
  destruct (generate_new_metadata_ind (self w));
    [destruct (llm _ _) as [r1|]; [destruct (llm _ _) as [r2|]|]|];
    simpl; eapply extends_replace; try eassumption; reflexivity.
Qed.

Lemma extends_add_proposition proposition w :
  extends uuid4 w (world_of (add_proposition llm uuid4 proposition w)).
Proof.
  unfold add_proposition, bind, get_self.
  destruct (Nat.eqb _ 0); [apply extends_create|].
  destruct (llm (length (asked w)) (placement_query w proposition))
    as [r|] eqn:E.
  - rewrite (find_relevant_chunk_answered _ _ _ _ E).
    destruct (match_result (self w) (PyStr.strip r)) as [id|] eqn:Em.
    + destruct (truthy (Some id)).
      * eapply extends_trans; [apply extends_ask|].
        apply extends_append. apply (match_result_known _ _ _ Em).
      * eapply extends_trans; [apply extends_ask | apply extends_create].
    + eapply extends_trans; [apply extends_ask | apply extends_create].
  - rewrite (find_relevant_chunk_failed _ _ _ E). apply extends_ask.
Qed.

Lemma extends_add_propositions ps w :
  extends uuid4 w (world_of (add_propositions llm uuid4 ps w)).
Proof.
  revert w. induction ps as [|p ps IH]; intros w; simpl.
  - apply extends_refl.
  - unfold bind.
    pose proof (extends_add_proposition p w) as Hp.
    destruct (add_proposition llm uuid4 p w) as [[] w1 | e w1]; simpl in *.
    + eapply extends_trans; [exact Hp | apply IH].
    + exact Hp.
Qed.

Lemma reachable_extends w :
  reachable llm uuid4 w -> extends uuid4 __init__ w.
Proof.
  induction 1 as [| p w _ IH | ps w _ IH].
  - apply extends_refl.
  - eapply extends_trans; [exact IH | apply extends_add_proposition].
  - eapply extends_trans; [exact IH | apply extends_add_propositions].
Qed.

(** C6, as the code has it.  In every state that calls of
    [add_proposition] and [add_propositions] reach from a fresh object,
    provided that no two draws of [uuid4] made so far gave the same
    chunk id: every creation has left one chunk, and the [chunk_index]
    values, read in store order, are 0, 1, ..., k-1 for the k chunks
    created. *)
Theorem chunk_index_collision_free w :
  reachable llm uuid4 w ->
  collision_free uuid4 w ->
  created w = length (chunks (self w))
  /\ indices w = seq 0 (created w).
Proof.
  intros Hr Hfree.
  destruct (reachable_extends w Hr) as (_ & _ & Hinv).
  destruct (Hinv Hfree) as (_ & Hidx & Hcnt).
  - repeat split. simpl. intros k [].
  - split; [assumption | now rewrite Hcnt].
Qed.

End Indices.

Lemma chunk_index_collision_free_witness :
  reachable Demo.llm_apart Demo.uuids Demo.after_two
  /\ collision_free Demo.uuids Demo.after_two
  /\ created Demo.after_two = 2
  /\ indices Demo.after_two = [0; 1].
Proof.
  assert (Hr : reachable Demo.llm_apart Demo.uuids Demo.after_two)
    by (apply reach_adds, reach_init).
  assert (Hfree : collision_free Demo.uuids Demo.after_two).
  { intros i j Hij. change (draws Demo.after_two) with 2 in Hij.
    assert (i = 0) as -> by lia. assert (j = 1) as -> by lia.
    vm_compute. discriminate. }
  split; [exact Hr|]. split; [exact Hfree|].
  exact (chunk_index_collision_free Demo.llm_apart Demo.uuids Demo.after_two
                                    Hr Hfree).
Defined.

(** C6 as stated fails: four propositions kept apart by the Oracle make
    four creations on a fresh object; the third one draws the id of the
    first chunk again and takes its place, and the indices stored in the
    end are 2, 1, 2. *)
Lemma chunk_index_repeated_after_collision :
  reachable Demo.llm_apart Demo.uuids Demo.after_four
  /\ created Demo.after_four = 4
  /\ indices Demo.after_four = [2; 1; 2]
  /\ ~ NoDup (indices Demo.after_four)
  /\ indices Demo.after_four <> seq 0 (created Demo.after_four).
Proof.
  split; [apply reach_adds, reach_init|].
  split; [reflexivity|]. split; [reflexivity|]. split.
  - change (indices Demo.after_four) with [2; 1; 2].
    intros H. inversion H as [|x l Hin _]. apply Hin. simpl. tauto.
  - vm_compute. discriminate.
Qed.

(** * Further properties of the code *)

(** ** More on strings *)

Section MoreStringFacts.

Lemma length_take (n : nat) (s : string) : String.length (PyStr.take n s) <= n.
Proof.
  revert s. induction n as [|n IH]; intros [|c s]; simpl; try lia.
  specialize (IH s). lia.
Qed.

Lemma lstrip_head (s : string) : head_not_space (PyStr.lstrip s).
Proof.
  induction s as [|c s IH]; simpl; [exact I|].
  destruct (PyStr.is_space c) eqn:E; [exact IH | exact E].
Qed.

Lemma head_lstrip (s : string) : head_not_space s -> PyStr.lstrip s = s.
Proof. destruct s as [|c s]; simpl; [reflexivity|]. now intros ->. Qed.

Lemma rstrip_head (s : string) :
  head_not_space s -> head_not_space (PyStr.rstrip s).
Proof.
  destruct s as [|c s]; simpl; [exact id|]. intros Hc.
  destruct (PyStr.rstrip s); [rewrite Hc|]; exact Hc.
Qed.

Lemma rstrip_idem (s : string) : PyStr.rstrip (PyStr.rstrip s) = PyStr.rstrip s.
Proof.
  induction s as [|c s IH]; simpl; [reflexivity|].
  destruct (PyStr.rstrip s) as [|c' r'] eqn:Er.
  - destruct (PyStr.is_space c) eqn:Ec; simpl; [reflexivity | now rewrite Ec].
  - change (PyStr.rstrip (String c (String c' r')))
      with (match PyStr.rstrip (String c' r') with
            | EmptyString =>
                if PyStr.is_space c then EmptyString else String c EmptyString
            | r => String c r
            end).
    now rewrite IH.
Qed.

(** Stripping a stripped text changes nothing. *)
Lemma strip_idem (s : string) : PyStr.strip (PyStr.strip s) = PyStr.strip s.
Proof.
  unfold PyStr.strip.
  rewrite (head_lstrip (PyStr.rstrip (PyStr.lstrip s))).
  - apply rstrip_idem.
  - apply rstrip_head, lstrip_head.
Qed.

Lemma join_snoc (sep : string) (ps : list string) (p : string) :
  ps <> [] -> PyStr.join sep (ps ++ [p]) = PyStr.join sep ps ++ sep ++ p.
Proof.
  induction ps as [|q ps IH]; [congruence|]. intros _.
  destruct ps as [|q' ps]; [reflexivity|].
  change (PyStr.join sep ((q :: q' :: ps) ++ [p]))
    with (q ++ sep ++ PyStr.join sep ((q' :: ps) ++ [p])).
  rewrite IH by discriminate.
  change (PyStr.join sep (q :: q' :: ps))
    with (q ++ sep ++ PyStr.join sep (q' :: ps)).
  now rewrite !append_assoc.
Qed.

End MoreStringFacts.

(** A concrete text is no no-match phrase. *)
Ltac not_no_match :=
  let H := fresh "H" in
  intros H; apply is_no_match_in_list in H; vm_compute in H; discriminate.

(** The next call of the language model, in the goal, answers. *)
Ltac answer_with Hnf :=
  match goal with
  | |- context [match ?l ?n ?q with Some _ => _ | None => _ end] =>
      let E := fresh "E" in
      destruct (l n q) eqn:E; [clear E | now destruct (Hnf _ _ E)]
  end.

(** ** More on the placement resolver *)

Section ResolverMore.

Variable llm : nat -> Query -> option string.
Variable uuid4 : nat -> string.
Implicit Types (w : World) (proposition r id : string).

(** An id that [match_result] returns is a key of the store and a part
    of the text matched, and the text is no no-match phrase. *)
Lemma match_result_some (s : AgenticChunker) (result id : string) :
  match_result s result = Some id ->
  In id (PyDict.keys (chunks s)) /\ is_substring id result
  /\ ~ is_no_match result.
Proof.
  unfold match_result. rewrite is_no_match_in_list.
  destruct (PyStr.in_list _ _); [discriminate|].
  destruct (PyDict.mem result (chunks s)) eqn:E1.
  { intros [= <-]. split; [now apply mem_keys|].
    split; [apply is_substring_refl | discriminate]. }
  destruct (PyDict.mem (PyStr.slice_to _ result) (chunks s)) eqn:E2.
  { intros [= <-]. split; [now apply mem_keys|].
    split; [apply slice_to_substring | discriminate]. }
  intros H. apply find_some in H. destruct H as [Hin Hc].
  split; [assumption|]. split; [now apply contains_substring | discriminate].
Qed.

Lemma match_result_exact (s : AgenticChunker) (result : string) :
  ~ is_no_match result -> In result (PyDict.keys (chunks s)) ->
  match_result s result = Some result.
Proof.
  unfold match_result. rewrite is_no_match_in_list. intros Hn Hin.
  destruct (PyStr.in_list _ _); [congruence|].
  apply mem_keys in Hin. now rewrite Hin.
Qed.

Lemma match_result_truncated (s : AgenticChunker) (result : string) :
  ~ is_no_match result -> ~ In result (PyDict.keys (chunks s)) ->
  In (PyStr.slice_to (id_truncate_limit s) result) (PyDict.keys (chunks s)) ->
  match_result s result = Some (PyStr.slice_to (id_truncate_limit s) result).
Proof.
  unfold match_result. rewrite is_no_match_in_list. intros Hn Hout Hin.
  destruct (PyStr.in_list _ _); [congruence|].
  apply not_mem_keys in Hout. apply mem_keys in Hin. now rewrite Hout, Hin.
Qed.

Lemma match_result_none (s : AgenticChunker) (result : string) :
  is_no_match result
  \/ (forall id, In id (PyDict.keys (chunks s)) -> ~ is_substring id result) ->
  match_result s result = None.
Proof.
  intros [Hn | Hno].
  - apply is_no_match_in_list in Hn. unfold match_result. now rewrite Hn.
  - destruct (match_result s result) as [id|] eqn:E; [|reflexivity].
    destruct (match_result_some _ _ _ E) as (Hin & Hsub & _).
    now destruct (Hno id Hin).
Qed.

Lemma match_result_single (s : AgenticChunker) id (c : Chunk) result :
  chunks s = [(id, c)] -> ~ is_no_match result -> is_substring id result ->
  match_result s result = Some id.
Proof.
  intros Hs Hn Hsub. unfold match_result. rewrite is_no_match_in_list in Hn.
  destruct (PyStr.in_list _ _); [congruence|]. rewrite Hs.
  destruct (PyDict.mem result [(id, c)]) eqn:E1.
  { apply mem_keys in E1. simpl in E1. destruct E1 as [-> | []]. reflexivity. }
  destruct (PyDict.mem (PyStr.slice_to _ result) [(id, c)]) eqn:E2.
  { apply mem_keys in E2. simpl in E2. destruct E2 as [<- | []]. reflexivity. }
  simpl. apply contains_substring in Hsub. now rewrite Hsub.
Qed.

(** X1.  [_find_relevant_chunk] never guesses: when it returns an id, the
    Oracle has answered, the id is the id of a stored chunk, it occurs in
    the stripped answer, and the answer is no no-match phrase. *)
Theorem find_relevant_chunk_sound proposition w id w' :
  _find_relevant_chunk llm proposition w = Return (Some id) w' ->
  exists r,
    answers llm w (placement_query w proposition) r
    /\ In id (known_ids w)
    /\ is_substring id (PyStr.strip r)
    /\ ~ is_no_match (PyStr.strip r).
Proof.
  destruct (llm (length (asked w)) (placement_query w proposition))
    as [r|] eqn:E.
  - rewrite (find_relevant_chunk_answered _ _ _ _ E). intros [= Hm _].
    exists r. split; [exact E|]. now apply match_result_some.
  - rewrite (find_relevant_chunk_failed _ _ _ E). discriminate.
Qed.

(** X2.  First tier: when the stripped answer of the Oracle is the id of
    a stored chunk, and no no-match phrase, [_find_relevant_chunk] returns
    it. *)
Theorem find_relevant_chunk_exact proposition w r :
  answers llm w (placement_query w proposition) r ->
  ~ is_no_match (PyStr.strip r) ->
  In (PyStr.strip r) (known_ids w) ->
  _find_relevant_chunk llm proposition w
  = Return (Some (PyStr.strip r)) (ask w (placement_query w proposition)).
Proof.
  intros Hr Hn Hin. rewrite (find_relevant_chunk_answered _ _ _ _ Hr).
  now rewrite match_result_exact.
Qed.

(** X3.  Second tier: when the stripped answer is not the id of a stored
    chunk but its first [id_truncate_limit] characters are,
    [_find_relevant_chunk] returns these characters, whatever other ids
    the answer contains. *)
Theorem find_relevant_chunk_truncated proposition w r :
  answers llm w (placement_query w proposition) r ->
  ~ is_no_match (PyStr.strip r) ->
  ~ In (PyStr.strip r) (known_ids w) ->
  In (PyStr.slice_to (id_truncate_limit (self w)) (PyStr.strip r))
     (known_ids w) ->
  _find_relevant_chunk llm proposition w
  = Return (Some (PyStr.slice_to (id_truncate_limit (self w)) (PyStr.strip r)))
           (ask w (placement_query w proposition)).
Proof.
  intros Hr Hn Hout Hin. rewrite (find_relevant_chunk_answered _ _ _ _ Hr).
  now rewrite match_result_truncated.
Qed.

(** X4.  Whatever the store holds and whatever the Oracle does,
    [_find_relevant_chunk] sends one query, the placement query made of
    the outline of the store and the proposition, draws no id and leaves
    the object as it was. *)
Theorem find_relevant_chunk_frame proposition w :
  self (world_of (_find_relevant_chunk llm proposition w)) = self w
  /\ asked_since w (world_of (_find_relevant_chunk llm proposition w))
     = [placement_query w proposition]
  /\ draws (world_of (_find_relevant_chunk llm proposition w)) = draws w.
Proof.
  destruct (llm (length (asked w)) (placement_query w proposition))
    as [r|] eqn:E.
  - rewrite (find_relevant_chunk_answered _ _ _ _ E). unfold asked_since.
    simpl. now rewrite skipn_length_app.
  - rewrite (find_relevant_chunk_failed _ _ _ E). unfold asked_since.
    simpl. now rewrite skipn_length_app.
Qed.

End ResolverMore.

Lemma find_relevant_chunk_sound_witness :
  exists r,
    answers Demo.llm_together (Demo.two_chunks true)
            (placement_query (Demo.two_chunks true) "The year is 2023.") r
    /\ In "d41a2" (known_ids (Demo.two_chunks true))
    /\ is_substring "d41a2" (PyStr.strip r)
    /\ ~ is_no_match (PyStr.strip r).
Proof.
  exact (find_relevant_chunk_sound
           Demo.llm_together "The year is 2023." (Demo.two_chunks true) "d41a2"
           (ask (Demo.two_chunks true)
                (placement_query (Demo.two_chunks true) "The year is 2023."))
           eq_refl).
Defined.

Lemma find_relevant_chunk_exact_witness :
  _find_relevant_chunk Demo.llm_exact "The year is 2023." (Demo.two_chunks true)
  = Return (Some "d41a2")
           (ask (Demo.two_chunks true)
                (placement_query (Demo.two_chunks true) "The year is 2023.")).
Proof.
  apply (find_relevant_chunk_exact
           Demo.llm_exact "The year is 2023." (Demo.two_chunks true) " d41a2 "
           eq_refl).
  - not_no_match.
  - vm_compute. left. reflexivity.
Defined.

(** The answer begins with the id of the second chunk and also contains
    the id of the first: the second chunk is chosen. *)
Lemma find_relevant_chunk_truncated_witness :
  _find_relevant_chunk Demo.llm_trailing "I like pasta." (Demo.two_chunks true)
  = Return (Some "7f3b9")
           (ask (Demo.two_chunks true)
                (placement_query (Demo.two_chunks true) "I like pasta.")).
Proof.
  apply (find_relevant_chunk_truncated
           Demo.llm_trailing "I like pasta." (Demo.two_chunks true)
           "7f3b9, not d41a2" eq_refl).
  - not_no_match.
  - vm_compute. intros [H | [H | []]]; discriminate.
  - vm_compute. right. left. reflexivity.
Defined.

(** ** More on [add_proposition] and [add_proposition_to_chunk] *)

Section OrchestratorMore.

Variable llm : nat -> Query -> option string.
Variable uuid4 : nat -> string.
Implicit Types (w : World) (proposition r id : string) (c : Chunk).

(** [add_proposition] on a store that is not empty: the placement query
    comes first, and its answer chooses between the append and the
    creation; an empty id counts as no id. *)
Lemma add_proposition_nonempty proposition w :
  chunks (self w) <> [] ->
  add_proposition llm uuid4 proposition w
  = match llm (length (asked w)) (placement_query w proposition) with
    | None => Raise OracleError (ask w (placement_query w proposition))
    | Some r =>
        match match_result (self w) (PyStr.strip r) with
        | Some (String a id) =>
            add_proposition_to_chunk llm (String a id) proposition
                                     (ask w (placement_query w proposition))
        | _ => _create_new_chunk llm uuid4 proposition
                                 (ask w (placement_query w proposition))
        end
    end.
Proof.
  intros Hne.
  assert (Hlen : Nat.eqb (PyDict.len (chunks (self w))) 0 = false)
    by (destruct (chunks (self w)); [congruence | reflexivity]).
  unfold add_proposition, bind, get_self. rewrite Hlen.
  destruct (llm (length (asked w)) (placement_query w proposition))
    as [r|] eqn:E.
  - rewrite (find_relevant_chunk_answered _ _ _ _ E).
    destruct (match_result (self w) (PyStr.strip r)) as [[|a id]|]; reflexivity.
  - now rewrite (find_relevant_chunk_failed _ _ _ E).
Qed.

(** X5.  On a store that is not empty, when the placement call of the
    Oracle fails, [add_proposition] raises the Oracle's error after that
    one query: the store is as before and the proposition is in no
    chunk. *)
Theorem add_proposition_placement_fails proposition w :
  chunks (self w) <> [] ->
  fails llm w (placement_query w proposition) ->
  add_proposition llm uuid4 proposition w
  = Raise OracleError (ask w (placement_query w proposition)).
Proof.
  intros Hne Hf. rewrite (add_proposition_nonempty _ _ Hne). unfold fails in Hf.
  now rewrite Hf.
Qed.

(** X6.  On a store that is not empty, when the stripped answer to the
    placement query is a no-match phrase, or contains the id of no stored
    chunk, [add_proposition] goes on as [_create_new_chunk] does from the
    state after that query. *)
Theorem add_proposition_no_match_creates proposition w r :
  chunks (self w) <> [] ->
  answers llm w (placement_query w proposition) r ->
  is_no_match (PyStr.strip r)
  \/ (forall id, In id (known_ids w) -> ~ is_substring id (PyStr.strip r)) ->
  add_proposition llm uuid4 proposition w
  = _create_new_chunk llm uuid4 proposition
                      (ask w (placement_query w proposition)).
Proof.
  intros Hne Hr Hno. rewrite (add_proposition_nonempty _ _ Hne).
  unfold answers in Hr. rewrite Hr. now rewrite (match_result_none _ _ Hno).
Qed.

(** X7.  When the stripped answer to the placement query is the id of a
    stored chunk, not empty and no no-match phrase, [add_proposition] goes
    on as [add_proposition_to_chunk] does on that chunk from the state
    after that query. *)
Theorem add_proposition_exact_appends proposition w r :
  answers llm w (placement_query w proposition) r ->
  ~ is_no_match (PyStr.strip r) ->
  In (PyStr.strip r) (known_ids w) ->
  PyStr.strip r <> "" ->
  add_proposition llm uuid4 proposition w
  = add_proposition_to_chunk llm (PyStr.strip r) proposition
                             (ask w (placement_query w proposition)).
Proof.
  intros Hr Hn Hin Hne. rewrite add_proposition_nonempty.
  - unfold answers in Hr. rewrite Hr, (match_result_exact _ _ Hn Hin).
    destruct (PyStr.strip r); [congruence | reflexivity].
  - unfold known_ids in Hin.
    destruct (chunks (self w)); [destruct Hin | discriminate].
Qed.

Lemma create_no_key_error proposition w k w' :
  _create_new_chunk llm uuid4 proposition w <> Raise (KeyError k) w'.
Proof.
  rewrite create_new_chunk_run.
  destruct (llm _ _) as [r1|]; [destruct (llm _ _) as [r2|]|]; discriminate.
Qed.

Lemma append_no_key_error id proposition w k w' :
  In id (known_ids w) ->
  add_proposition_to_chunk llm id proposition w <> Raise (KeyError k) w'.
Proof.
  intros Hin. apply mem_keys, get_some_mem in Hin. destruct Hin as [c Hc].
  destruct (get_split _ _ _ Hc) as (before & after & Heq & Hb).
  rewrite (add_proposition_to_chunk_run _ _ _ _ _ _ _ Heq Hb).
  destruct (generate_new_metadata_ind (self w));
    [destruct (llm _ _) as [r1|]; [destruct (llm _ _) as [r2|]|]|];
    discriminate.
Qed.

Lemma add_proposition_no_key_error proposition w k w' :
  add_proposition llm uuid4 proposition w <> Raise (KeyError k) w'.
Proof.
  destruct (chunks (self w)) as [|kv d] eqn:Ec.
  - unfold add_proposition, bind, get_self. rewrite Ec. simpl.
    apply create_no_key_error.
  - rewrite add_proposition_nonempty by (rewrite Ec; discriminate).
    destruct (llm (length (asked w)) (placement_query w proposition))
      as [r|] eqn:E; [|discriminate].
    destruct (match_result (self w) (PyStr.strip r)) as [[|a id]|] eqn:Em;
      try apply create_no_key_error.
    apply append_no_key_error. apply (match_result_known _ _ _ Em).
Qed.

Lemma add_propositions_no_key_error ps w k w' :
  add_propositions llm uuid4 ps w <> Raise (KeyError k) w'.
Proof.
  revert w. induction ps as [|p ps IH]; intros w; simpl; [discriminate|].
  unfold bind. pose proof (add_proposition_no_key_error p w k w') as Hp.
  destruct (add_proposition llm uuid4 p w) as [[] w1 | e w1].
  - apply IH.
  - intros [= -> ->]. now apply Hp.
Qed.

(** X8.  [add_propositions], and so [add_proposition], either returns or
    raises the Oracle's error; it never raises [KeyError], since the only
    id it appends to is one that the resolver found in the store. *)
Theorem add_propositions_outcomes ps w :
  (exists w', add_propositions llm uuid4 ps w = Return tt w')
  \/ (exists w', add_propositions llm uuid4 ps w = Raise OracleError w').
Proof.
  pose proof (add_propositions_no_key_error ps w) as Hk.
  destruct (add_propositions llm uuid4 ps w) as [[] w' | [|k] w'].
  - left. now exists w'.
  - right. now exists w'.
  - now destruct (Hk k w').
Qed.

End OrchestratorMore.

Lemma add_proposition_placement_fails_witness :
  add_proposition Demo.llm_down Demo.uuids "The year is 2023." Demo.one_chunk
  = Raise OracleError
          (ask Demo.one_chunk (placement_query Demo.one_chunk "The year is 2023.")).
Proof.
  apply (add_proposition_placement_fails
           Demo.llm_down Demo.uuids "The year is 2023." Demo.one_chunk).
  - discriminate.
  - reflexivity.
Defined.

Lemma add_proposition_no_match_creates_witness :
  add_proposition Demo.llm_apart Demo.uuids "I like pizza." Demo.one_chunk
  = _create_new_chunk Demo.llm_apart Demo.uuids "I like pizza."
                      (ask Demo.one_chunk
                           (placement_query Demo.one_chunk "I like pizza.")).
Proof.
  apply (add_proposition_no_match_creates
           Demo.llm_apart Demo.uuids "I like pizza." Demo.one_chunk "No match").
  - discriminate.
  - reflexivity.
  - left. exists "no match". split; [simpl; tauto | reflexivity].
Defined.

Lemma add_proposition_exact_appends_witness :
  add_proposition Demo.llm_exact Demo.uuids "The year is 2023." Demo.one_chunk
  = add_proposition_to_chunk Demo.llm_exact "d41a2" "The year is 2023."
                             (ask Demo.one_chunk
                                  (placement_query Demo.one_chunk
                                                   "The year is 2023.")).
Proof.
  apply (add_proposition_exact_appends
           Demo.llm_exact Demo.uuids "The year is 2023." Demo.one_chunk " d41a2 "
           eq_refl).
  - not_no_match.
  - vm_compute. left. reflexivity.
  - discriminate.
Defined.

Section AppendMore.

Variable llm : nat -> Query -> option string.
Variable uuid4 : nat -> string.
Implicit Types (w : World) (proposition r id : string) (c : Chunk).

Lemma get_set_same (d : PyDict.t Chunk) id c :
  PyDict.get (PyDict.set d id c) id = Some c.
Proof.
  induction d as [|[k v] d IH]; simpl.
  - now rewrite String.eqb_refl.
  - destruct (String.eqb_spec k id) as [-> | Hne]; simpl.
    + now rewrite String.eqb_refl.
    + destruct (String.eqb_spec k id); [contradiction | exact IH].
Qed.

(** X9.  [add_proposition_to_chunk] on an id that is not in the store
    raises [KeyError] for that id at once: nothing is sent to the Oracle
    and nothing is changed. *)
Theorem add_proposition_to_chunk_missing id proposition w :
  ~ In id (known_ids w) ->
  add_proposition_to_chunk llm id proposition w = Raise (KeyError id) w.
Proof.
  intros Hout. apply not_mem_keys in Hout. unfold PyDict.mem in Hout.
  destruct (PyDict.get (chunks (self w)) id) eqn:E; [discriminate|].
  unfold add_proposition_to_chunk, bind, getitem, bind, get_self, raise.
  cbv beta iota. now rewrite E.
Qed.

(** X10.  With regeneration on, an append whose two Oracle calls answer
    returns; the chunk has the proposition at the end of its propositions,
    the stripped answers as its summary and its title, its id and index as
    before, and the other chunks are untouched.  The summary is asked for
    first, with the old summary; the title is asked for next, with the new
    summary and the old title. *)
Theorem add_proposition_to_chunk_refreshed id proposition w c r1 r2 :
  generate_new_metadata_ind (self w) = true ->
  PyDict.get (chunks (self w)) id = Some c ->
  answers llm w (UpdateSummaryPrompt
                   (PyStr.join PyStr.nl (propositions c ++ [proposition]))
                   (summary c)) r1 ->
  answers llm (ask w (UpdateSummaryPrompt
                        (PyStr.join PyStr.nl (propositions c ++ [proposition]))
                        (summary c)))
          (UpdateTitlePrompt
             (PyStr.join PyStr.nl (propositions c ++ [proposition]))
             (PyStr.strip r1) (title c)) r2 ->
  exists before after w',
    add_proposition_to_chunk llm id proposition w = Return tt w'
    /\ chunks (self w) = (before ++ (id, c) :: after)%list
    /\ chunks (self w')
       = (before
            ++ (id, mkChunk (chunk_id c) (propositions c ++ [proposition])
                            (PyStr.strip r2) (PyStr.strip r1) (chunk_index c))
            :: after)%list
    /\ asked w'
       = (asked w
            ++ [UpdateSummaryPrompt
                  (PyStr.join PyStr.nl (propositions c ++ [proposition]))
                  (summary c);
                UpdateTitlePrompt
                  (PyStr.join PyStr.nl (propositions c ++ [proposition]))
                  (PyStr.strip r1) (title c)])%list.
Proof.
  intros Hg Hget H1 H2.
  destruct (get_split _ _ _ Hget) as (before & after & Heq & Hb).
  exists before, after.
  rewrite (add_proposition_to_chunk_run _ _ _ _ _ _ _ Heq Hb), Hg.
  unfold answers, ask in H1, H2. simpl in H1, H2.
  unfold summary_query, title_query, appended, with_summary, with_propositions.
  simpl. rewrite H1, H2. eexists. split; [reflexivity|]. split; [assumption|].
  simpl. split; [reflexivity | now rewrite <- app_assoc].
Qed.

(** X11.  When [add_proposition] returns, the proposition is the last
    proposition of a chunk of the store. *)
Theorem add_proposition_stores_last proposition w w' :
  add_proposition llm uuid4 proposition w = Return tt w' ->
  exists id c earlier,
    PyDict.get (chunks (self w')) id = Some c
    /\ propositions c = (earlier ++ [proposition])%list.
Proof.
  assert (Hcreate : forall w0,
             _create_new_chunk llm uuid4 proposition w0 = Return tt w' ->
             exists id c earlier,
               PyDict.get (chunks (self w')) id = Some c
               /\ propositions c = (earlier ++ [proposition])%list).
  { intros w0. rewrite create_new_chunk_run.
    destruct (llm _ _) as [r1|]; [destruct (llm _ _) as [r2|]|];
      try discriminate.
    intros [= <-]. simpl. eexists _, _, [].
    split; [apply get_set_same | reflexivity]. }
  destruct (chunks (self w)) as [|kv d] eqn:Ec.
  - unfold add_proposition, bind, get_self. rewrite Ec. simpl. apply Hcreate.
  - rewrite add_proposition_nonempty by (rewrite Ec; discriminate).
    destruct (llm (length (asked w)) (placement_query w proposition))
      as [r|] eqn:E; [|discriminate].
    destruct (match_result (self w) (PyStr.strip r)) as [[|a id]|] eqn:Em;
      try apply Hcreate.
    clear Hcreate. pose proof (match_result_known _ _ _ Em) as Hin. clear E Em.
    apply mem_keys, get_some_mem in Hin. destruct Hin as [c Hc].
    destruct (get_split _ _ _ Hc) as (before & after & Heq & Hb).
    rewrite (add_proposition_to_chunk_run _ _ _ (ask w _) c before after Heq Hb).
    destruct (generate_new_metadata_ind _).
    + destruct (llm _ _) as [r1|]; [|discriminate].
      destruct (llm _ _) as [r2|]; [|discriminate].
      intros [= <-]. simpl. eexists _, _, (propositions c).
      split; [apply (get_middle _ _ _ _ Hb) | reflexivity].
    + intros [= <-]. simpl. eexists _, _, (propositions c).
      split; [apply (get_middle _ _ _ _ Hb) | reflexivity].
Qed.


End AppendMore.

Lemma add_proposition_to_chunk_missing_witness :
  add_proposition_to_chunk Demo.llm_together "7f3b9" "I like pizza."
                           Demo.one_chunk
  = Raise (KeyError "7f3b9") Demo.one_chunk.
Proof.
  apply (add_proposition_to_chunk_missing
           Demo.llm_together "7f3b9" "I like pizza." Demo.one_chunk).
  vm_compute. intros [H | []]. discriminate.
Defined.

Lemma add_proposition_to_chunk_refreshed_witness :
  exists before after w',
    add_proposition_to_chunk Demo.llm_apart "d41a2" "The year is 2023."
                             Demo.one_chunk
    = Return tt w'
    /\ chunks (self Demo.one_chunk)
       = (before ++ ("d41a2", Demo.october) :: after)%list
    /\ chunks (self w')
       = (before
            ++ ("d41a2",
                mkChunk "d41a2" ["The month is October."; "The year is 2023."]
                        "Dates & Time (more)"
                        "Statements about the date. (more)" 0)
            :: after)%list
    /\ asked w'
       = [UpdateSummaryPrompt
            (PyStr.join PyStr.nl ["The month is October."; "The year is 2023."])
            "Statements about the date.";
          UpdateTitlePrompt
            (PyStr.join PyStr.nl ["The month is October."; "The year is 2023."])
            "Statements about the date. (more)" "Dates & Time"].
Proof.
  exact (add_proposition_to_chunk_refreshed
           Demo.llm_apart "d41a2" "The year is 2023." Demo.one_chunk Demo.october
           "Statements about the date. (more)" "Dates & Time (more)"
           eq_refl eq_refl eq_refl eq_refl).
Defined.

Lemma add_proposition_stores_last_witness :
  exists id c earlier,
    PyDict.get
      (chunks (self (world_of (add_proposition Demo.llm_together Demo.uuids
                                               "The year is 2023."
                                               Demo.one_chunk))))
      id
    = Some c
    /\ propositions c = (earlier ++ ["The year is 2023."])%list.
Proof.
  exact (add_proposition_stores_last
           Demo.llm_together Demo.uuids "The year is 2023." Demo.one_chunk
           (world_of (add_proposition Demo.llm_together Demo.uuids
                                      "The year is 2023." Demo.one_chunk))
           eq_refl).
Defined.

(** ** What a batch costs and what it keeps *)

Section Growth.

Variable llm : nat -> Query -> option string.
Variable uuid4 : nat -> string.
Implicit Types (w : World) (proposition r id : string) (c : Chunk).

Lemma is_prefix_of_refl {A} (l : list A) : is_prefix_of l l.
Proof. exists []. now rewrite app_nil_r. Qed.

Lemma is_prefix_of_trans {A} (l1 l2 l3 : list A) :
  is_prefix_of l1 l2 -> is_prefix_of l2 l3 -> is_prefix_of l1 l3.
Proof.
  intros [r1 ->] [r2 ->]. exists (r1 ++ r2)%list. now rewrite app_assoc.
Qed.

Lemma keys_set (d : PyDict.t Chunk) id c :
  PyDict.keys (PyDict.set d id c)
  = if PyDict.mem id d then PyDict.keys d else (PyDict.keys d ++ [id])%list.
Proof.
  destruct (PyDict.mem id d) eqn:E.
  - apply get_some_mem in E. destruct E as [old Hold].
    destruct (get_split _ _ _ Hold) as (before & after & -> & Hb).
    rewrite (set_middle _ _ _ _ _ Hb). unfold PyDict.keys. now rewrite !map_app.
  - apply not_mem_keys in E. rewrite (set_absent _ _ _ E).
    unfold PyDict.keys. now rewrite map_app.
Qed.

Lemma length_set (d : PyDict.t Chunk) id c :
  length (PyDict.set d id c) <= length d + 1.
Proof.
  induction d as [|[k v] d IH]; simpl; [lia|].
  destruct (String.eqb k id); simpl; lia.
Qed.

Lemma grows_refl w : grows 0 0 0 w w.
Proof. repeat split; try apply is_prefix_of_refl; lia. Qed.

Lemma grows_trans (a b d a' b' d' : nat) w1 w2 w3 :
  grows a b d w1 w2 -> grows a' b' d' w2 w3 ->
  grows (a + a') (b + b') (d + d') w1 w3.
Proof.
  intros (K1 & L1 & A1 & Q1 & D1) (K2 & L2 & A2 & Q2 & D2).
  repeat split; try (eapply is_prefix_of_trans; eassumption); lia.
Qed.

Lemma grows_weaken (a b d a' b' d' : nat) w w' :
  a <= a' -> b <= b' -> d <= d' -> grows a b d w w' -> grows a' b' d' w w'.
Proof.
  intros Ha Hb Hd (K & L & A & Q & D). repeat split; try assumption; lia.
Qed.

Lemma grows_ask w q : grows 0 1 0 w (ask w q).
Proof.
  repeat split; simpl; try apply is_prefix_of_refl; try lia.
  - now exists [q].
  - rewrite length_app. simpl. lia.
Qed.

Lemma grows_create proposition w :
  grows 1 2 1 w (world_of (_create_new_chunk llm uuid4 proposition w)).
Proof.
  rewrite create_new_chunk_run.
  destruct (llm _ _) as [r1|]; [destruct (llm _ _) as [r2|]|]; simpl.
  - unfold grows, known_ids. simpl. rewrite keys_set. repeat split.
    + destruct (PyDict.mem _ _); [apply is_prefix_of_refl | now eexists].
    + apply length_set.
    + eexists. now rewrite <- app_assoc.
    + rewrite !length_app. simpl. lia.
    + lia.
  - unfold grows, known_ids. simpl.
    repeat split; try apply is_prefix_of_refl; try lia.
    + eexists. now rewrite <- app_assoc.
    + rewrite !length_app. simpl. lia.
  - unfold grows, known_ids. simpl.
    repeat split; try apply is_prefix_of_refl; try lia.
    + now eexists.
    + rewrite !length_app. simpl. lia.
Qed.

Lemma grows_replace w w' before after id c c' qs :
  chunks (self w) = (before ++ (id, c) :: after)%list ->
  chunks (self w') = (before ++ (id, c') :: after)%list ->
  asked w' = (asked w ++ qs)%list -> length qs <= 2 -> draws w' = draws w ->
  grows 0 2 0 w w'.
Proof.
  intros Hw Hw' Ha Hq Hd. unfold grows, known_ids.
  rewrite Hw, Hw', Ha, Hd, !length_app. unfold PyDict.keys.
  rewrite !map_app. simpl.
  repeat split; try apply is_prefix_of_refl; try lia. now exists qs.
Qed.

Lemma grows_append id proposition w :
  In id (known_ids w) ->
  grows 0 2 0 w (world_of (add_proposition_to_chunk llm id proposition w)).
Proof.
  intros Hin. apply mem_keys, get_some_mem in Hin. destruct Hin as [c Hc].
  destruct (get_split _ _ _ Hc) as (before & after & Heq & Hb).
  rewrite (add_proposition_to_chunk_run _ _ _ _ _ _ _ Heq Hb).
  destruct (generate_new_metadata_ind (self w));
    [destruct (llm _ _) as [r1|]; [destruct (llm _ _) as [r2|]|]|]; simpl.
  - eapply (grows_replace _ _ before after id c _ [_; _]);
      [exact Heq | reflexivity | simpl; now rewrite <- app_assoc | simpl; lia
      | reflexivity].
  - eapply (grows_replace _ _ before after id c _ [_; _]);
      [exact Heq | reflexivity | simpl; now rewrite <- app_assoc | simpl; lia
      | reflexivity].
  - eapply (grows_replace _ _ before after id c _ [_]);
      [exact Heq | reflexivity | reflexivity | simpl; lia | reflexivity].
  - eapply (grows_replace _ _ before after id c _ []);
      [exact Heq | reflexivity | simpl; now rewrite app_nil_r | simpl; lia
      | reflexivity].
Qed.

Lemma grows_add_proposition proposition w :
  grows 1 3 1 w (world_of (add_proposition llm uuid4 proposition w)).
Proof.
  destruct (chunks (self w)) as [|kv d] eqn:Ec.
  - unfold add_proposition, bind, get_self. rewrite Ec. simpl.
    eapply grows_weaken; [| | |apply grows_create]; lia.
  - rewrite add_proposition_nonempty by (rewrite Ec; discriminate).
    destruct (llm (length (asked w)) (placement_query w proposition))
      as [r|] eqn:E.
    + destruct (match_result (self w) (PyStr.strip r)) as [[|a id]|] eqn:Em.
      * apply (grows_trans 0 1 0 1 2 1 _ _ _
                           (grows_ask w (placement_query w proposition))),
          grows_create.
      * eapply grows_weaken;
          [| | |apply (grows_trans 0 1 0 0 2 0 _ _ _
                                   (grows_ask w (placement_query w proposition)))];
          try lia.
        apply grows_append. apply (match_result_known _ _ _ Em).
      * apply (grows_trans 0 1 0 1 2 1 _ _ _
                           (grows_ask w (placement_query w proposition))),
          grows_create.
    + eapply grows_weaken; [| | |apply grows_ask]; lia.
Qed.

Lemma grows_add_propositions ps w :
  grows (length ps) (3 * length ps) (length ps) w
        (world_of (add_propositions llm uuid4 ps w)).
Proof.
  revert w. induction ps as [|p ps IH]; intros w.
  - apply grows_refl.
  - simpl add_propositions. unfold bind.
    pose proof (grows_add_proposition p w) as Hp.
    destruct (add_proposition llm uuid4 p w) as [[] w1 | e w1];
      simpl world_of in *.
    + eapply grows_weaken;
        [| | |apply (grows_trans _ _ _ _ _ _ _ _ _ Hp (IH w1))]; simpl; lia.
    + eapply grows_weaken; [| | |exact Hp]; simpl; lia.
Qed.

(** X13.  Whatever the Oracle answers and however a batch of n
    propositions ends, the chunks that were stored keep their place (the
    ids before are the first ids after, in the same order), at most n
    chunks are added, at most 3 n queries are sent to the Oracle, after
    those sent before, and at most n ids are drawn. *)
Theorem add_propositions_bounds ps w :
  is_prefix_of (known_ids w)
               (known_ids (world_of (add_propositions llm uuid4 ps w)))
  /\ length (chunks (self (world_of (add_propositions llm uuid4 ps w))))
     <= length (chunks (self w)) + length ps
  /\ is_prefix_of (asked w) (asked (world_of (add_propositions llm uuid4 ps w)))
  /\ length (asked (world_of (add_propositions llm uuid4 ps w)))
     <= length (asked w) + 3 * length ps
  /\ draws (world_of (add_propositions llm uuid4 ps w)) <= draws w + length ps.
Proof. exact (grows_add_propositions ps w). Qed.

End Growth.

(** ** What holds in every state of an object *)

Section WellFormed.

Variable llm : nat -> Query -> option string.
Variable uuid4 : nat -> string.
Implicit Types (w : World) (proposition r id : string) (c : Chunk).

Lemma in_set (d : PyDict.t Chunk) id c k v :
  In (k, v) (PyDict.set d id c) -> (k = id /\ v = c) \/ In (k, v) d.
Proof.
  induction d as [|[k0 v0] d IH]; simpl.
  - intros [[= <- <-] | []]. now left.
  - destruct (String.eqb_spec k0 id) as [-> | Hne]; simpl.
    + intros [[= <- <-] | H]; [now left | right; now right].
    + intros [H | H]; [right; now left|].
      destruct (IH H) as [H' | H']; [now left | right; now right].
Qed.

Lemma nodup_keys_set (d : PyDict.t Chunk) id c :
  NoDup (PyDict.keys d) -> NoDup (PyDict.keys (PyDict.set d id c)).
Proof.
  intros Hd. rewrite keys_set. destruct (PyDict.mem id d) eqn:E; [assumption|].
  apply not_mem_keys in E.
  apply NoDup_app; [assumption | repeat constructor; intros [] | ].
  intros k Hk [<- | []]. contradiction.
Qed.

Lemma entry_ok_mono n m k c : n <= m -> entry_ok n k c -> entry_ok m k c.
Proof. unfold entry_ok. intuition lia. Qed.

Lemma well_formed_create proposition w :
  well_formed w ->
  well_formed (world_of (_create_new_chunk llm uuid4 proposition w)).
Proof.
  intros (Hl & Hg & Hnd & Hok & Hlen & Hcd).
  rewrite create_new_chunk_run.
  destruct (llm _ _) as [r1|]; [destruct (llm _ _) as [r2|]|]; simpl.
  - unfold well_formed, known_ids. simpl.
    split; [assumption|]. split; [assumption|].
    split; [now apply nodup_keys_set|]. split; [|split].
    + intros k v Hin. apply in_set in Hin. destruct Hin as [[-> ->] | Hin].
      * unfold entry_ok, new_chunk, drawn_id. simpl. rewrite Hl.
        repeat split; try apply strip_idem; try discriminate; try lia.
        apply (length_take 5).
      * apply (entry_ok_mono (created w)); [lia | now apply Hok].
    + pose proof (length_set (chunks (self w)) (drawn_id uuid4 w (draws w))
                             (new_chunk uuid4 w proposition r1 r2)). lia.
    + lia.
  - split; [assumption|]. split; [assumption|]. split; [assumption|].
    split; [exact Hok|]. split; [assumption | simpl; lia].
  - split; [assumption|]. split; [assumption|]. split; [assumption|].
    split; [exact Hok|]. split; [assumption | simpl; lia].
Qed.

Lemma well_formed_replace w w' before after id c c' :
  chunks (self w) = (before ++ (id, c) :: after)%list ->
  chunks (self w') = (before ++ (id, c') :: after)%list ->
  id_truncate_limit (self w') = id_truncate_limit (self w) ->
  generate_new_metadata_ind (self w') = generate_new_metadata_ind (self w) ->
  created w' = created w -> draws w' = draws w ->
  (forall n, entry_ok n id c -> entry_ok n id c') ->
  well_formed w -> well_formed w'.
Proof.
  intros Hw Hw' El Eg Ec Ed Hc' (Hl & Hg & Hnd & Hok & Hlen & Hcd).
  unfold well_formed, known_ids in *. rewrite Hw in *.
  rewrite Hw', El, Eg, Ec, Ed.
  unfold PyDict.keys in *. rewrite !map_app, !length_app in *. simpl in *.
  split; [assumption|]. split; [assumption|]. split; [assumption|].
  split; [|split; assumption].
  intros k v Hin. apply in_app_or in Hin. destruct Hin as [Hin | [Hin | Hin]].
  - apply Hok. apply in_or_app. now left.
  - injection Hin as <- <-. apply Hc', Hok, in_or_app. right. now left.
  - apply Hok. apply in_or_app. right. now right.
Qed.

Lemma well_formed_append id proposition w :
  In id (known_ids w) -> well_formed w ->
  well_formed (world_of (add_proposition_to_chunk llm id proposition w)).
Proof.
  intros Hin Hwf. apply mem_keys, get_some_mem in Hin. destruct Hin as [c Hc].
  destruct (get_split _ _ _ Hc) as (before & after & Heq & Hb).
  rewrite (add_proposition_to_chunk_run _ _ _ _ _ _ _ Heq Hb).
  destruct (generate_new_metadata_ind (self w));
    [destruct (llm _ _) as [r1|]; [destruct (llm _ _) as [r2|]|]|]; simpl;
    (eapply (well_formed_replace w _ before after id c);
     [exact Heq | reflexivity | reflexivity | reflexivity | reflexivity
     | reflexivity | | exact Hwf]);
    unfold entry_ok; simpl; intros n (H1 & H2 & H3 & H4 & H5 & H6);
    repeat split; try assumption; try apply strip_idem;
    intros Habs; apply app_eq_nil in Habs; destruct Habs; discriminate.
Qed.

Lemma well_formed_add_proposition proposition w :
  well_formed w ->
  well_formed (world_of (add_proposition llm uuid4 proposition w)).
Proof.
  intros Hwf. destruct (chunks (self w)) as [|kv d] eqn:Ec.
  - unfold add_proposition, bind, get_self. rewrite Ec. simpl.
    now apply well_formed_create.
  - rewrite add_proposition_nonempty by (rewrite Ec; discriminate).
    destruct (llm (length (asked w)) (placement_query w proposition))
      as [r|] eqn:E; [|exact Hwf].
    destruct (match_result (self w) (PyStr.strip r)) as [[|a id]|] eqn:Em;
      try (apply well_formed_create; exact Hwf).
    apply well_formed_append; [|exact Hwf]. apply (match_result_known _ _ _ Em).
Qed.

Lemma well_formed_add_propositions ps w :
  well_formed w ->
  well_formed (world_of (add_propositions llm uuid4 ps w)).
Proof.
  revert w. induction ps as [|p ps IH]; intros w Hwf; simpl; [exact Hwf|].
  unfold bind. pose proof (well_formed_add_proposition p w Hwf) as Hp.
  destruct (add_proposition llm uuid4 p w) as [[] w1 | e w1]; simpl in *.
  - now apply IH.
  - exact Hp.
Qed.

Lemma reachable_well_formed w : reachable llm uuid4 w -> well_formed w.
Proof.
  induction 1 as [| p w _ IH | ps w _ IH].
  - unfold well_formed, known_ids. simpl.
    repeat split; try lia; try constructor.
  - now apply well_formed_add_proposition.
  - now apply well_formed_add_propositions.
Qed.

(** X14.  In every state that calls of [add_proposition] and
    [add_propositions] reach from a fresh object, no two chunks have the
    same id, every chunk is stored under its own [chunk_id], and an id has
    at most five characters. *)
Theorem reachable_ids w :
  reachable llm uuid4 w ->
  NoDup (known_ids w)
  /\ forall k c, In (k, c) (chunks (self w)) ->
                 chunk_id c = k /\ String.length k <= 5.
Proof.
  intros Hr. destruct (reachable_well_formed w Hr) as (_ & _ & Hnd & Hok & _).
  split; [exact Hnd|]. intros k c Hin.
  destruct (Hok k c Hin) as (H1 & H2 & _). now split.
Qed.

(** X15.  In every such state, every chunk has at least one proposition,
    and its title and its summary are stripped texts: stripping them again
    changes nothing. *)
Theorem reachable_chunks_filled w :
  reachable llm uuid4 w ->
  forall k c, In (k, c) (chunks (self w)) ->
              propositions c <> []
              /\ PyStr.strip (title c) = title c
              /\ PyStr.strip (summary c) = summary c.
Proof.
  intros Hr k c Hin.
  destruct (reachable_well_formed w Hr) as (_ & _ & _ & Hok & _).
  destruct (Hok k c Hin) as (_ & _ & H3 & H4 & H5 & _). now repeat split.
Qed.

(** X16.  In every such state, also when ids have collided, the store has
    at most as many chunks as creations were made, at most as many
    creations were made as ids were drawn, and every [chunk_index] is less
    than the number of creations. *)
Theorem reachable_counters w :
  reachable llm uuid4 w ->
  length (chunks (self w)) <= created w
  /\ created w <= draws w
  /\ forall k c, In (k, c) (chunks (self w)) -> chunk_index c < created w.
Proof.
  intros Hr.
  destruct (reachable_well_formed w Hr) as (_ & _ & _ & Hok & Hlen & Hcd).
  split; [exact Hlen|]. split; [exact Hcd|]. intros k c Hin.
  now destruct (Hok k c Hin) as (_ & _ & _ & _ & _ & H6).
Qed.

End WellFormed.

Lemma reachable_ids_witness :
  NoDup (known_ids Demo.after_two)
  /\ forall k c, In (k, c) (chunks (self Demo.after_two)) ->
                 chunk_id c = k /\ String.length k <= 5.
Proof.
  exact (reachable_ids Demo.llm_apart Demo.uuids Demo.after_two
                       (reach_adds _ _ _ _ (reach_init _ _))).
Defined.

Lemma reachable_chunks_filled_witness :
  ["I like pizza."] <> []
  /\ PyStr.strip "Topic" = "Topic"
  /\ PyStr.strip "About: I like pizza." = "About: I like pizza.".
Proof.
  apply (reachable_chunks_filled
           Demo.llm_apart Demo.uuids Demo.after_two
           (reach_adds _ _ _ _ (reach_init _ _))
           "7f3b9"
           (mkChunk "7f3b9" ["I like pizza."] "Topic" "About: I like pizza." 1)).
  vm_compute. right. left. reflexivity.
Defined.

(** After the collision of [Demo.after_four]: three chunks, four
    creations, four draws. *)
Lemma reachable_counters_witness :
  length (chunks (self Demo.after_four)) <= 4
  /\ 4 <= 4
  /\ forall k c, In (k, c) (chunks (self Demo.after_four)) -> chunk_index c < 4.
Proof.
  exact (reachable_counters Demo.llm_apart Demo.uuids Demo.after_four
                            (reach_adds _ _ _ _ (reach_init _ _))).
Defined.

(** ** The configuration is never touched *)

Section Configuration.

Variable llm : nat -> Query -> option string.
Variable uuid4 : nat -> string.
Implicit Types (w : World) (proposition r id : string) (c : Chunk).

Lemma config_create proposition w :
  with_chunks (self (world_of (_create_new_chunk llm uuid4 proposition w))) []
  = with_chunks (self w) [].
Proof.
  rewrite create_new_chunk_run.
  destruct (llm _ _) as [r1|]; [destruct (llm _ _) as [r2|]|]; reflexivity.
Qed.

Lemma config_append id proposition w :
  with_chunks (self (world_of (add_proposition_to_chunk llm id proposition w))) []
  = with_chunks (self w) [].
Proof.
  destruct (PyDict.mem id (chunks (self w))) eqn:E.
  - apply get_some_mem in E. destruct E as [c Hc].
    destruct (get_split _ _ _ Hc) as (before & after & Heq & Hb).
    rewrite (add_proposition_to_chunk_run _ _ _ _ _ _ _ Heq Hb).
    destruct (generate_new_metadata_ind (self w));
      [destruct (llm _ _) as [r1|]; [destruct (llm _ _) as [r2|]|]|];
      reflexivity.
  - unfold PyDict.mem in E.
    unfold add_proposition_to_chunk, bind, getitem, bind, get_self, raise.
    cbv beta iota.
    destruct (PyDict.get (chunks (self w)) id); [discriminate | reflexivity].
Qed.

Lemma config_add_proposition proposition w :
  with_chunks (self (world_of (add_proposition llm uuid4 proposition w))) []
  = with_chunks (self w) [].
Proof.
  destruct (chunks (self w)) as [|kv d] eqn:Ec.
  - unfold add_proposition, bind, get_self. rewrite Ec. simpl.
    apply config_create.
  - rewrite add_proposition_nonempty by (rewrite Ec; discriminate).
    destruct (llm (length (asked w)) (placement_query w proposition))
      as [r|]; [|reflexivity].
    destruct (match_result (self w) (PyStr.strip r)) as [[|a id]|].
    + apply (config_create proposition (ask w _)).
    + apply (config_append _ proposition (ask w _)).
    + apply (config_create proposition (ask w _)).
Qed.

(** X17.  [add_propositions], and so [add_proposition], changes nothing
    of the object but its store: [id_truncate_limit],
    [generate_new_metadata_ind] and [print_logging] are after the call,
    however it ends, what they were before. *)
Theorem add_propositions_keeps_configuration ps w :
  id_truncate_limit (self (world_of (add_propositions llm uuid4 ps w)))
  = id_truncate_limit (self w)
  /\ generate_new_metadata_ind (self (world_of (add_propositions llm uuid4 ps w)))
     = generate_new_metadata_ind (self w)
  /\ print_logging (self (world_of (add_propositions llm uuid4 ps w)))
     = print_logging (self w).
Proof.
  assert (H : with_chunks (self (world_of (add_propositions llm uuid4 ps w))) []
              = with_chunks (self w) []).
  { revert w. induction ps as [|p ps IH]; intros w; simpl; [reflexivity|].
    unfold bind. pose proof (config_add_proposition p w) as Hp.
    destruct (add_proposition llm uuid4 p w) as [[] w1 | e w1]; simpl in *.
    - now rewrite IH.
    - exact Hp. }
  unfold with_chunks in H. injection H as H1 H2 H3. now repeat split.
Qed.

End Configuration.

(** ** Where the propositions end up *)

Section Conservation.

Variable llm : nat -> Query -> option string.
Variable uuid4 : nat -> string.
Implicit Types (w : World) (proposition r id : string) (c : Chunk).

Lemma all_propositions_app (d d' : PyDict.t Chunk) :
  concat (map propositions (PyDict.values (d ++ d')%list))
  = (concat (map propositions (PyDict.values d))
       ++ concat (map propositions (PyDict.values d')))%list.
Proof. unfold PyDict.values. now rewrite !map_app, concat_app. Qed.

Lemma collision_free_earlier w w' :
  extends uuid4 w w' -> collision_free uuid4 w' -> collision_free uuid4 w.
Proof.
  intros (Hl & Hd & _) Hfree i j Hij. unfold drawn_id. rewrite <- Hl.
  apply (Hfree i j). lia.
Qed.

Lemma create_conserves proposition w w' :
  store_inv uuid4 w -> collision_free uuid4 w' ->
  _create_new_chunk llm uuid4 proposition w = Return tt w' ->
  all_propositions w' = (all_propositions w ++ [proposition])%list.
Proof.
  intros (Hkeys & _) Hfree. rewrite create_new_chunk_run.
  destruct (llm _ _) as [r1|]; [destruct (llm _ _) as [r2|]|];
    try discriminate.
  intros [= <-].
  assert (Hfresh : ~ In (drawn_id uuid4 w (draws w)) (known_ids w)).
  { intros Hin. destruct (Hkeys _ Hin) as (i & Hi & He).
    apply (Hfree i (draws w)); [simpl; lia|]. exact (eq_sym He). }
  unfold all_propositions. simpl. rewrite (set_absent _ _ _ Hfresh).
  rewrite all_propositions_app. simpl. rewrite ?app_nil_r. reflexivity.
Qed.

Lemma append_conserves id proposition w w' :
  In id (known_ids w) ->
  add_proposition_to_chunk llm id proposition w = Return tt w' ->
  Permutation (all_propositions w') (all_propositions w ++ [proposition]).
Proof.
  intros Hin. apply mem_keys, get_some_mem in Hin. destruct Hin as [c Hc].
  destruct (get_split _ _ _ Hc) as (before & after & Heq & Hb).
  rewrite (add_proposition_to_chunk_run _ _ _ _ _ _ _ Heq Hb).
  assert (Hperm : forall c',
             propositions c' = (propositions c ++ [proposition])%list ->
             Permutation
               (concat (map propositions
                            (PyDict.values (before ++ (id, c') :: after)%list)))
               (concat (map propositions
                            (PyDict.values (before ++ (id, c) :: after)%list))
                  ++ [proposition])).
  { intros c' Hc'. rewrite !all_propositions_app. simpl. rewrite Hc'.
    rewrite <- !app_assoc. apply Permutation_app_head.
    apply Permutation_app_head. apply Permutation_app_comm. }
  unfold all_propositions. rewrite Heq.
  destruct (generate_new_metadata_ind (self w)).
  - destruct (llm _ _) as [r1|]; [|discriminate].
    destruct (llm _ _) as [r2|]; [|discriminate].
    intros [= <-]. simpl. now apply Hperm.
  - intros [= <-]. simpl. now apply Hperm.
Qed.

Lemma add_proposition_conserves proposition w w' :
  store_inv uuid4 w -> collision_free uuid4 w' ->
  add_proposition llm uuid4 proposition w = Return tt w' ->
  Permutation (all_propositions w') (all_propositions w ++ [proposition]).
Proof.
  intros Hinv Hfree.
  destruct (chunks (self w)) as [|kv d] eqn:Ec.
  - unfold add_proposition, bind, get_self. rewrite Ec. simpl. intros Hrun.
    now rewrite (create_conserves _ _ _ Hinv Hfree Hrun).
  - rewrite add_proposition_nonempty by (rewrite Ec; discriminate).
    destruct (llm (length (asked w)) (placement_query w proposition))
      as [r|] eqn:E; [|discriminate].
    destruct (match_result (self w) (PyStr.strip r)) as [[|a id]|] eqn:Em.
    + intros Hrun.
      now rewrite (create_conserves _ (ask w _) _ Hinv Hfree Hrun).
    + pose proof (match_result_known _ _ _ Em) as Hin. clear E Em.
      intros Hrun. now apply (append_conserves _ _ (ask w _) _ Hin Hrun).
    + intros Hrun.
      now rewrite (create_conserves _ (ask w _) _ Hinv Hfree Hrun).
Qed.

Lemma add_propositions_conserves ps w w' :
  store_inv uuid4 w -> collision_free uuid4 w' ->
  add_propositions llm uuid4 ps w = Return tt w' ->
  Permutation (all_propositions w') (all_propositions w ++ ps).
Proof.
  revert w. induction ps as [|p ps IH]; intros w Hinv Hfree.
  - simpl. intros [= <-]. now rewrite app_nil_r.
  - simpl add_propositions. unfold bind.
    pose proof (extends_add_proposition llm uuid4 p w) as Hext.
    destruct (add_proposition llm uuid4 p w) as [[] w1 | e w1] eqn:Hp;
      [|discriminate].
    simpl in Hext. intros Hrest.
    pose proof (extends_add_propositions llm uuid4 ps w1) as Hext'.
    rewrite Hrest in Hext'. simpl in Hext'.
    pose proof (collision_free_earlier _ _ Hext' Hfree) as Hfree1.
    assert (Hinv1 : store_inv uuid4 w1).
    { destruct Hext as (_ & _ & H). now apply H. }
    rewrite (IH w1 Hinv1 Hfree Hrest).
    rewrite (add_proposition_conserves _ _ _ Hinv Hfree1 Hp).
    now rewrite <- app_assoc.
Qed.

(** X18.  When a batch on a fresh object returns and no two ids drawn
    were equal, the propositions of the store are those of the batch, each
    as many times as it was given: none is lost and none is in two
    chunks. *)
Theorem propositions_conserved ps w :
  add_propositions llm uuid4 ps __init__ = Return tt w ->
  collision_free uuid4 w ->
  Permutation (all_propositions w) ps.
Proof.
  intros Hrun Hfree.
  apply (add_propositions_conserves ps __init__ w); try assumption.
  repeat split. intros k [].
Qed.

Lemma subseq_nil_l {A} (l : list A) : subseq [] l.
Proof. induction l; constructor; assumption. Qed.

Lemma subseq_app_one {A} (l l' : list A) (x : A) :
  subseq l l' -> subseq l (l' ++ [x]).
Proof. induction 1; simpl; repeat constructor; assumption. Qed.

Lemma subseq_snoc {A} (l l' : list A) (x : A) :
  subseq l l' -> subseq (l ++ [x]) (l' ++ [x]).
Proof. induction 1; simpl; repeat constructor; assumption. Qed.

Lemma order_later w arrived p :
  in_arrival_order w arrived -> in_arrival_order w (arrived ++ [p]).
Proof. intros H k c Hin. apply subseq_app_one. now apply (H k c). Qed.

Lemma order_create proposition w arrived :
  in_arrival_order w arrived ->
  in_arrival_order (world_of (_create_new_chunk llm uuid4 proposition w))
                   (arrived ++ [proposition]).
Proof.
  intros Hord. rewrite create_new_chunk_run.
  destruct (llm _ _) as [r1|]; [destruct (llm _ _) as [r2|]|]; simpl;
    try (now apply order_later).
  intros k c Hin. simpl in Hin. apply in_set in Hin.
  destruct Hin as [[-> ->] | Hin].
  - simpl. apply (subseq_snoc [] arrived). apply subseq_nil_l.
  - apply subseq_app_one. now apply (Hord k c).
Qed.

Lemma order_replace w w' before after id c c' arrived p :
  chunks (self w) = (before ++ (id, c) :: after)%list ->
  chunks (self w') = (before ++ (id, c') :: after)%list ->
  propositions c' = (propositions c ++ [p])%list ->
  in_arrival_order w arrived -> in_arrival_order w' (arrived ++ [p]).
Proof.
  intros Hw Hw' Hp Hord k v Hin. rewrite Hw' in Hin.
  unfold in_arrival_order in Hord. rewrite Hw in Hord.
  apply in_app_or in Hin. destruct Hin as [Hin | [Hin | Hin]].
  - apply subseq_app_one, (Hord k v), in_or_app. now left.
  - injection Hin as <- <-. rewrite Hp.
    apply subseq_snoc, (Hord id c), in_or_app. right. now left.
  - apply subseq_app_one, (Hord k v), in_or_app. right. now right.
Qed.

Lemma order_append id proposition w arrived :
  In id (known_ids w) -> in_arrival_order w arrived ->
  in_arrival_order (world_of (add_proposition_to_chunk llm id proposition w))
                   (arrived ++ [proposition]).
Proof.
  intros Hin Hord. apply mem_keys, get_some_mem in Hin. destruct Hin as [c Hc].
  destruct (get_split _ _ _ Hc) as (before & after & Heq & Hb).
  rewrite (add_proposition_to_chunk_run _ _ _ _ _ _ _ Heq Hb).
  destruct (generate_new_metadata_ind (self w));
    [destruct (llm _ _) as [r1|]; [destruct (llm _ _) as [r2|]|]|]; simpl;
    (eapply (order_replace w _ before after id c);
     [exact Heq | reflexivity | reflexivity | exact Hord]).
Qed.

Lemma order_add_proposition proposition w arrived :
  in_arrival_order w arrived ->
  in_arrival_order (world_of (add_proposition llm uuid4 proposition w))
                   (arrived ++ [proposition]).
Proof.
  intros Hord. destruct (chunks (self w)) as [|kv d] eqn:Ec.
  - unfold add_proposition, bind, get_self. rewrite Ec. simpl.
    now apply order_create.
  - rewrite add_proposition_nonempty by (rewrite Ec; discriminate).
    destruct (llm (length (asked w)) (placement_query w proposition))
      as [r|] eqn:E; [|now apply order_later].
    destruct (match_result (self w) (PyStr.strip r)) as [[|a id]|] eqn:Em;
      try (apply order_create; exact Hord).
    apply order_append; [|exact Hord]. apply (match_result_known _ _ _ Em).
Qed.

Lemma order_add_propositions ps w arrived :
  in_arrival_order w arrived ->
  in_arrival_order (world_of (add_propositions llm uuid4 ps w)) (arrived ++ ps).
Proof.
  revert w arrived. induction ps as [|p ps IH]; intros w arrived Hord.
  - simpl. now rewrite app_nil_r.
  - simpl add_propositions. unfold bind.
    pose proof (order_add_proposition p w arrived Hord) as Hp.
    destruct (add_proposition llm uuid4 p w) as [[] w1 | e w1]; simpl in *.
    + replace (arrived ++ p :: ps)%list with ((arrived ++ [p]) ++ ps)%list
        by now rewrite <- app_assoc.
      now apply IH.
    + intros k c Hin. specialize (Hp k c Hin).
      replace (arrived ++ p :: ps)%list with ((arrived ++ [p]) ++ ps)%list
        by now rewrite <- app_assoc.
      clear -Hp. induction ps as [|q ps IHps] using rev_ind.
      * now rewrite app_nil_r.
      * rewrite app_assoc. now apply subseq_app_one.
Qed.

(** X19.  However a batch on a fresh object goes (whatever the Oracle
    answers, whether ids collide, whether it returns or raises), the
    propositions of every chunk of the store are propositions of the
    batch, in the order in which the batch gave them. *)
Theorem propositions_keep_arrival_order ps :
  Forall (fun c => subseq (propositions c) ps)
         (PyDict.values
            (chunks (self (world_of (add_propositions llm uuid4 ps __init__))))).
Proof.
  apply Forall_forall. intros c Hc. unfold PyDict.values in Hc.
  apply in_map_iff in Hc. destruct Hc as ([k c'] & <- & Hin).
  apply (order_add_propositions ps __init__ []
                                (fun _ _ H => match H with end) k c' Hin).
Qed.

End Conservation.

Lemma after_two_collision_free : collision_free Demo.uuids Demo.after_two.
Proof.
  intros i j Hij. change (draws Demo.after_two) with 2 in Hij.
  assert (i = 0) as -> by lia. assert (j = 1) as -> by lia.
  vm_compute. discriminate.
Qed.

Lemma propositions_conserved_witness :
  Permutation (all_propositions Demo.after_two)
              ["The month is October."; "I like pizza."].
Proof.
  exact (propositions_conserved
           Demo.llm_apart Demo.uuids
           ["The month is October."; "I like pizza."] Demo.after_two
           eq_refl after_two_collision_free).
Defined.

(** ** Two Oracles of one mind *)

Section EndToEnd.

Variable llm : nat -> Query -> option string.
Variable uuid4 : nat -> string.
Implicit Types (w : World) (proposition r id : string) (c : Chunk).

Lemma related_step id c q w :
  never_fails llm -> always_names llm id -> id <> "" ->
  chunks (self w) = [(id, c)] ->
  exists w' c',
    add_proposition llm uuid4 q w = Return tt w'
    /\ chunks (self w') = [(id, c')]
    /\ propositions c' = (propositions c ++ [q])%list
    /\ chunk_index c' = chunk_index c.
Proof.
  intros Hnf Hnames Hid Hw.
  rewrite add_proposition_nonempty by (rewrite Hw; discriminate).
  destruct (llm (length (asked w)) (placement_query w q)) as [r|] eqn:E;
    [|now destruct (Hnf _ _ E)].
  destruct (Hnames _ _ _ _ E) as [Hn Hsub].
  rewrite (match_result_single _ _ _ _ Hw Hn Hsub). clear E.
  destruct id as [|a id]; [congruence|].
  rewrite (add_proposition_to_chunk_run llm _ q (ask w _) c [] []);
    [|exact Hw | intros []].
  destruct (generate_new_metadata_ind _).
  - answer_with Hnf. answer_with Hnf.
    eexists _, _. split; [reflexivity|]. simpl. repeat split.
  - eexists _, _. split; [reflexivity|]. simpl. repeat split.
Qed.

Lemma related_steps id rest :
  never_fails llm -> always_names llm id -> id <> "" ->
  forall c w, chunks (self w) = [(id, c)] ->
  exists w' c',
    add_propositions llm uuid4 rest w = Return tt w'
    /\ chunks (self w') = [(id, c')]
    /\ propositions c' = (propositions c ++ rest)%list
    /\ chunk_index c' = chunk_index c.
Proof.
  intros Hnf Hnames Hid. induction rest as [|q rest IH]; intros c w Hw.
  - exists w, c. simpl. rewrite app_nil_r. repeat split. exact Hw.
  - destruct (related_step id c q w Hnf Hnames Hid Hw)
      as (w1 & c1 & Hrun & Hw1 & Hp1 & Hi1).
    destruct (IH c1 w1 Hw1) as (w' & c' & Hrun' & Hw' & Hp' & Hi').
    exists w', c'. simpl. unfold bind. rewrite Hrun.
    split; [exact Hrun'|]. split; [exact Hw'|].
    split; [|congruence]. rewrite Hp', Hp1. now rewrite <- app_assoc.
Qed.

(** X20.  With an Oracle that answers every query and whose every answer
    to a placement query contains the id of the first chunk and is no
    no-match phrase, a batch on a fresh object returns and leaves one
    chunk, of index 0, whose propositions are those of the batch in their
    order. *)
Theorem one_chunk_when_oracle_names_first p rest :
  never_fails llm ->
  always_names llm (drawn_id uuid4 __init__ 0) ->
  drawn_id uuid4 __init__ 0 <> "" ->
  exists w c,
    add_propositions llm uuid4 (p :: rest) __init__ = Return tt w
    /\ chunks (self w) = [(drawn_id uuid4 __init__ 0, c)]
    /\ propositions c = p :: rest
    /\ chunk_index c = 0.
Proof.
  intros Hnf Hnames Hid.
  simpl add_propositions. unfold bind.
  assert (Hfirst : exists r1 r2,
             add_proposition llm uuid4 p __init__
             = Return tt
                 (counted
                    (with_store
                       (ask (ask (drew __init__) (NewSummaryPrompt p))
                            (NewTitlePrompt (PyStr.strip r1)))
                       [(drawn_id uuid4 __init__ 0,
                         new_chunk uuid4 __init__ p r1 r2)]))).
  { unfold add_proposition, bind, get_self. simpl.
    rewrite create_new_chunk_run.
    answer_with Hnf. answer_with Hnf. now eexists _, _. }
  destruct Hfirst as (r1 & r2 & Hrun). rewrite Hrun.
  destruct (related_steps _ rest Hnf Hnames Hid
                          (new_chunk uuid4 __init__ p r1 r2)
                          (counted
                             (with_store
                                (ask (ask (drew __init__) (NewSummaryPrompt p))
                                     (NewTitlePrompt (PyStr.strip r1)))
                                [(drawn_id uuid4 __init__ 0,
                                  new_chunk uuid4 __init__ p r1 r2)]))
                          eq_refl)
    as (w' & c' & Hrun' & Hw' & Hp' & Hi').
  exists w', c'. repeat split; assumption.
Qed.

Lemma apart_create arrived p w w0 :
  never_fails llm ->
  one_chunk_each uuid4 arrived w ->
  self w0 = self w -> draws w0 = draws w ->
  (forall i, i < length arrived ->
             drawn_id uuid4 __init__ i
             <> drawn_id uuid4 __init__ (length arrived)) ->
  exists w',
    _create_new_chunk llm uuid4 p w0 = Return tt w'
    /\ one_chunk_each uuid4 (arrived ++ [p]) w'.
Proof.
  intros Hnf (Hl & Hd & Hk & Hp & Hi) Hself Hdraws Hfresh.
  rewrite create_new_chunk_run. answer_with Hnf. answer_with Hnf.
  eexists. split; [reflexivity|].
  assert (Hnew : ~ In (drawn_id uuid4 __init__ (length arrived)) (known_ids w)).
  { rewrite Hk. intros Hin. apply in_map_iff in Hin.
    destruct Hin as (i & He & Hi'). apply in_seq in Hi'.
    apply (Hfresh i); [lia | exact He]. }
  assert (Hlen : length (chunks (self w)) = length arrived).
  { unfold known_ids, PyDict.keys in Hk.
    now rewrite <- (length_map fst (chunks (self w))), Hk, length_map,
      length_seq. }
  unfold one_chunk_each, known_ids, indices, new_chunk, drawn_id in *. simpl.
  rewrite Hself, Hdraws, Hl, Hd. simpl in Hnew |- *.
  rewrite (set_absent _ _ _ Hnew).
  rewrite length_app. simpl. rewrite Nat.add_1_r, seq_S, !map_app. simpl.
  unfold PyDict.keys, PyDict.values in *. rewrite !map_app. simpl.
  rewrite Hk, Hp, Hi, Hlen.
  repeat split.
Qed.

Lemma apart_step arrived p w :
  never_fails llm -> always_declines llm ->
  one_chunk_each uuid4 arrived w ->
  (forall i, i < length arrived ->
             drawn_id uuid4 __init__ i
             <> drawn_id uuid4 __init__ (length arrived)) ->
  exists w',
    add_proposition llm uuid4 p w = Return tt w'
    /\ one_chunk_each uuid4 (arrived ++ [p]) w'.
Proof.
  intros Hnf Hdec Hone Hfresh.
  destruct (chunks (self w)) as [|kv d] eqn:Ec.
  - unfold add_proposition, bind, get_self. rewrite Ec. simpl.
    now apply (apart_create arrived p w w).
  - rewrite add_proposition_nonempty by (rewrite Ec; discriminate).
    destruct (llm (length (asked w)) (placement_query w p)) as [r|] eqn:E;
      [|now destruct (Hnf _ _ E)].
    rewrite (match_result_none _ _ (or_introl (Hdec _ _ _ _ E))).
    now apply (apart_create arrived p w (ask w _)).
Qed.

Lemma apart_steps ps :
  never_fails llm -> always_declines llm ->
  forall arrived w,
    one_chunk_each uuid4 arrived w ->
    (forall i j, i < j < length arrived + length ps ->
                 drawn_id uuid4 __init__ i <> drawn_id uuid4 __init__ j) ->
    exists w',
      add_propositions llm uuid4 ps w = Return tt w'
      /\ one_chunk_each uuid4 (arrived ++ ps) w'.
Proof.
  intros Hnf Hdec. induction ps as [|p ps IH]; intros arrived w Hone Hfresh.
  - exists w. simpl. rewrite app_nil_r. now split.
  - destruct (apart_step arrived p w Hnf Hdec Hone) as (w1 & Hrun & Hone1).
    { intros i Hi. apply Hfresh. simpl. lia. }
    destruct (IH (arrived ++ [p])%list w1 Hone1) as (w' & Hrun' & Hone').
    { intros i j Hij. apply Hfresh. rewrite length_app in Hij. simpl in *. lia. }
    exists w'. simpl. unfold bind. rewrite Hrun. split; [exact Hrun'|].
    now rewrite <- app_assoc in Hone'.
Qed.

(** X21.  With an Oracle that answers every query and whose every answer
    to a placement query is a no-match phrase, and ids that differ for the
    draws of the batch, a batch on a fresh object returns and leaves one
    chunk for each proposition, in the order of the batch: the i-th chunk
    holds the i-th proposition alone, under the i-th id drawn, with index
    i. *)
Theorem one_chunk_each_when_oracle_declines ps :
  never_fails llm -> always_declines llm ->
  (forall i j, i < j < length ps ->
               drawn_id uuid4 __init__ i <> drawn_id uuid4 __init__ j) ->
  exists w,
    add_propositions llm uuid4 ps __init__ = Return tt w
    /\ map propositions (PyDict.values (chunks (self w)))
       = map (fun p => [p]) ps
    /\ known_ids w = map (drawn_id uuid4 __init__) (seq 0 (length ps))
    /\ indices w = seq 0 (length ps).
Proof.
  intros Hnf Hdec Hfresh.
  destruct (apart_steps ps Hnf Hdec [] __init__) as (w & Hrun & Hone).
  - repeat split.
  - exact Hfresh.
  - exists w. destruct Hone as (_ & _ & Hk & Hp & Hi). now repeat split.
Qed.

End EndToEnd.

Lemma llm_together_never_fails : never_fails Demo.llm_together.
Proof. intros n q. destruct q; discriminate. Qed.

Lemma llm_together_names : always_names Demo.llm_together "d41a2".
Proof.
  intros n outline p r [= <-]. split; [not_no_match|].
  exists "The best match is ", ".". reflexivity.
Qed.

Lemma llm_apart_never_fails : never_fails Demo.llm_apart.
Proof. intros n q. destruct q; discriminate. Qed.

Lemma llm_apart_declines : always_declines Demo.llm_apart.
Proof.
  intros n outline p r [= <-]. exists "no match".
  split; [simpl; tauto | reflexivity].
Qed.

Lemma one_chunk_when_oracle_names_first_witness :
  exists w c,
    add_propositions Demo.llm_together Demo.uuids
                     ["The month is October."; "The year is 2023."] __init__
    = Return tt w
    /\ chunks (self w) = [("d41a2", c)]
    /\ propositions c = ["The month is October."; "The year is 2023."]
    /\ chunk_index c = 0.
Proof.
  apply (one_chunk_when_oracle_names_first
           Demo.llm_together Demo.uuids
           "The month is October." ["The year is 2023."]
           llm_together_never_fails llm_together_names).
  discriminate.
Defined.

Lemma one_chunk_each_when_oracle_declines_witness :
  exists w,
    add_propositions Demo.llm_apart Demo.uuids
                     ["The month is October."; "I like pizza."] __init__
    = Return tt w
    /\ map propositions (PyDict.values (chunks (self w)))
       = [["The month is October."]; ["I like pizza."]]
    /\ known_ids w = ["d41a2"; "7f3b9"]
    /\ indices w = [0; 1].
Proof.
  apply (one_chunk_each_when_oracle_declines
           Demo.llm_apart Demo.uuids
           ["The month is October."; "I like pizza."]
           llm_apart_never_fails llm_apart_declines).
  intros i j Hij. simpl in Hij.
  assert (i = 0) as -> by lia. assert (j = 1) as -> by lia.
  vm_compute. discriminate.
Defined.

(** ** The outline and the list view *)

Section OutlineAndViews.

Variable llm : nat -> Query -> option string.
Variable uuid4 : nat -> string.
Implicit Types (w : World) (proposition r id : string) (c : Chunk).

Lemma fold_outline (l : list Chunk) (text : string) :
  fold_left (fun outline chunk => outline ++ outline_block chunk) l text
  = text ++ fold_right (fun chunk rest => outline_block chunk ++ rest) "" l.
Proof.
  revert text. induction l as [|c l IH]; intros text; simpl.
  - now rewrite append_nil_r.
  - now rewrite IH, append_assoc.
Qed.

Lemma block_substring (l : list Chunk) c :
  In c l ->
  is_substring (outline_block c)
               (fold_right (fun chunk rest => outline_block chunk ++ rest) "" l).
Proof.
  induction l as [|c0 l IH]; [intros []|].
  intros [-> | Hin]; cbn [fold_right].
  - now exists "",
      (fold_right (fun chunk rest => outline_block chunk ++ rest) "" l).
  - destruct (IH Hin) as (pre & post & Heq).
    exists (outline_block c0 ++ pre), post. rewrite Heq.
    now rewrite !append_assoc.
Qed.

(** X22.  [get_chunk_outline] changes nothing and returns the blocks of
    the chunks one after the other in store order, each block giving the
    id, the title and the summary of its chunk on three lines followed by
    an empty line.  So every stored chunk is shown to the Oracle, and the
    outline is empty exactly when the store is. *)
Theorem outline_lists_every_chunk w :
  get_chunk_outline w = Return (outline_of w) w
  /\ outline_of w
     = fold_right (fun chunk rest =>
                     ("Chunk ID: " ++ chunk_id chunk ++ PyStr.nl
                      ++ "Chunk Name: " ++ title chunk ++ PyStr.nl
                      ++ "Chunk Summary: " ++ summary chunk
                      ++ PyStr.nl ++ PyStr.nl)
                     ++ rest)
                  "" (PyDict.values (chunks (self w)))
  /\ Forall (fun c =>
               is_substring
                 ("Chunk ID: " ++ chunk_id c ++ PyStr.nl
                  ++ "Chunk Name: " ++ title c ++ PyStr.nl
                  ++ "Chunk Summary: " ++ summary c ++ PyStr.nl ++ PyStr.nl)
                 (outline_of w))
            (PyDict.values (chunks (self w)))
  /\ (outline_of w = "" <-> chunks (self w) = []).
Proof.
  assert (Ho : outline_of w
               = fold_right (fun chunk rest => outline_block chunk ++ rest) ""
                            (PyDict.values (chunks (self w)))).
  { unfold outline_of, get_chunk_outline, bind, get_self, ret.
    now rewrite fold_outline. }
  split; [reflexivity|]. split; [exact Ho|]. split.
  - apply Forall_forall. intros c Hc. rewrite Ho.
    now apply (block_substring _ c).
  - rewrite Ho. destruct (chunks (self w)) as [|[k c] d]; simpl.
    + tauto.
    + split; discriminate.
Qed.

(** X23.  When an append to a chunk that has propositions returns, the
    list view differs from the one before at the place of that chunk
    only, where the text of the chunk has gained a space and the new
    proposition. *)
Theorem list_view_after_append id proposition w w' c :
  PyDict.get (chunks (self w)) id = Some c ->
  propositions c <> [] ->
  add_proposition_to_chunk llm id proposition w = Return tt w' ->
  exists before after,
    chunks (self w) = (before ++ (id, c) :: after)%list
    /\ get_chunks (PyString "list_of_strings") w
       = Return (ViewList (strings_of before
                             ++ PyStr.join " " (propositions c)
                             :: strings_of after)) w
    /\ get_chunks (PyString "list_of_strings") w'
       = Return (ViewList (strings_of before
                             ++ (PyStr.join " " (propositions c)
                                 ++ " " ++ proposition)
                             :: strings_of after)) w'.
Proof.
  intros Hget Hne.
  destruct (get_split _ _ _ Hget) as (before & after & Heq & Hb).
  rewrite (add_proposition_to_chunk_run _ _ _ _ _ _ _ Heq Hb). intros Hrun.
  exists before, after. split; [exact Heq|].
  assert (Hview : forall w0 c0,
             chunks (self w0) = (before ++ (id, c0) :: after)%list ->
             get_chunks (PyString "list_of_strings") w0
             = Return (ViewList (strings_of before
                                   ++ PyStr.join " " (propositions c0)
                                   :: strings_of after)) w0).
  { intros w0 c0 H0. unfold get_chunks, bind, get_self, ret. simpl. rewrite H0.
    unfold strings_of, PyDict.values. now rewrite !map_app. }
  split; [now apply Hview|].
  rewrite <- (join_snoc " " _ proposition Hne).
  destruct (generate_new_metadata_ind (self w)).
  - destruct (llm _ _) as [r1|]; [|discriminate].
    destruct (llm _ _) as [r2|]; [|discriminate].
    injection Hrun as <-.
    now apply (Hview _ (with_title (with_summary (appended c proposition)
                                                (PyStr.strip r1))
                                  (PyStr.strip r2))).
  - injection Hrun as <-. now apply (Hview _ (appended c proposition)).
Qed.

(** X24.  With [id_truncate_limit] set to 0 every id is the empty string,
    which [add_proposition] takes for no id: on a store that is empty or
    holds one chunk under the empty id, with an Oracle that answers, it
    returns and leaves one chunk whose only proposition is the one just
    given.  What the store held is lost. *)
Theorem zero_limit_keeps_only_last proposition w :
  never_fails llm ->
  id_truncate_limit (self w) = 0%Z ->
  chunks (self w) = [] \/ (exists c0, chunks (self w) = [("", c0)]) ->
  exists w' c,
    add_proposition llm uuid4 proposition w = Return tt w'
    /\ chunks (self w') = [("", c)]
    /\ propositions c = [proposition].
Proof.
  intros Hnf Hl Hstore.
  assert (Hcreate : forall w0,
             self w0 = self w ->
             exists w' c,
               _create_new_chunk llm uuid4 proposition w0 = Return tt w'
               /\ chunks (self w') = [("", c)]
               /\ propositions c = [proposition]).
  { intros w0 Hself. rewrite create_new_chunk_run.
    answer_with Hnf. answer_with Hnf.
    destruct Hstore as [Hs | [c0 Hs]];
      (eexists _, _; split; [reflexivity|]; simpl;
       unfold drawn_id, new_chunk, drawn_id; rewrite Hself, Hl, Hs; simpl;
       split; reflexivity). }
  destruct Hstore as [Hempty | [c0 Hone]].
  - unfold add_proposition, bind, get_self. rewrite Hempty. simpl.
    now apply Hcreate.
  - rewrite add_proposition_nonempty by (rewrite Hone; discriminate).
    destruct (llm (length (asked w)) (placement_query w proposition))
      as [r|] eqn:E; [|now destruct (Hnf _ _ E)].
    destruct (match_result (self w) (PyStr.strip r)) as [[|a id]|] eqn:Em;
      try (now apply Hcreate).
    apply match_result_known in Em. rewrite Hone in Em. simpl in Em.
    destruct Em as [Habs | []]. discriminate.
Qed.

End OutlineAndViews.

Lemma list_view_after_append_witness :
  exists before after,
    chunks (self (Demo.two_chunks false))
    = (before ++ ("7f3b9", Demo.pizza) :: after)%list
    /\ get_chunks (PyString "list_of_strings") (Demo.two_chunks false)
       = Return (ViewList (strings_of before ++ "I like pizza."
                             :: strings_of after))
                (Demo.two_chunks false)
    /\ get_chunks (PyString "list_of_strings")
                  (world_of (add_proposition_to_chunk
                               Demo.llm_down "7f3b9" "I like pasta."
                               (Demo.two_chunks false)))
       = Return (ViewList (strings_of before ++ "I like pizza. I like pasta."
                             :: strings_of after))
                (world_of (add_proposition_to_chunk
                             Demo.llm_down "7f3b9" "I like pasta."
                             (Demo.two_chunks false))).
Proof.
  apply (list_view_after_append
           Demo.llm_down "7f3b9" "I like pasta." (Demo.two_chunks false)
           (world_of (add_proposition_to_chunk
                        Demo.llm_down "7f3b9" "I like pasta."
                        (Demo.two_chunks false)))
           Demo.pizza eq_refl).
  - discriminate.
  - reflexivity.
Defined.

(** Two propositions on an object whose limit is 0: the first is gone. *)
Lemma zero_limit_keeps_only_last_witness :
  (exists w' c,
      add_proposition Demo.llm_together Demo.uuids "The month is October."
                      Demo.zero_limit
      = Return tt w'
      /\ chunks (self w') = [("", c)]
      /\ propositions c = ["The month is October."])
  /\ (exists w' c,
         add_proposition Demo.llm_together Demo.uuids "The year is 2023."
                         (world_of (add_proposition
                                      Demo.llm_together Demo.uuids
                                      "The month is October." Demo.zero_limit))
         = Return tt w'
         /\ chunks (self w') = [("", c)]
         /\ propositions c = ["The year is 2023."]).
Proof.
  split.
  - apply (zero_limit_keeps_only_last
             Demo.llm_together Demo.uuids "The month is October."
             Demo.zero_limit llm_together_never_fails eq_refl).
    left. reflexivity.
  - apply (zero_limit_keeps_only_last
             Demo.llm_together Demo.uuids "The year is 2023."
             (world_of (add_proposition Demo.llm_together Demo.uuids
                                        "The month is October." Demo.zero_limit))
             llm_together_never_fails eq_refl).
    right. eexists. reflexivity.
Defined.
